(** * process-csv: the validation rule engine of [file_processor.py]

    A shallow embedding of the field checks, the rule dispatcher, the merge
    of the finding tables and the error-rate registry, with the properties the
    specification states about them.

    The program is written against pandas.  The part of pandas it calls is
    modelled in [Module Pandas] below, one definition per call, following the
    behaviour of pandas 2.x on numpy (the empty [DataFrame()] has a
    [RangeIndex] as its columns, indexing an [Index] with a two-dimensional
    key is refused, a merge whose suffixes create duplicate columns raises).
    The functions of [file_processor.py] are then transcribed line by line
    on top of that layer, in a state-and-exception monad whose state is the
    module-level dictionary [problems]. *)

From Stdlib Require Import ZArith Floats Uint63 Ascii String.
From Stdlib Require Import DecimalString.
From stdpp Require Import base gmap strings list.

Set Warnings "-register-all".

Local Open Scope Z_scope.

(** ** Numbers as Python prints them *)

Module PyNum.

(** [int -> float] conversion, exact below 2^53. *)
Definition float_of_Z (z : Z) : float :=
  if z <? 0 then PrimFloat.opp (PrimFloat.of_uint63 (Uint63.of_Z (- z)))
  else PrimFloat.of_uint63 (Uint63.of_Z z).

(** The integer nearest to [n / d] ([0 <= n], [0 < d]), ties to even. *)
Definition div_half_even (n d : Z) : Z :=
  let q := n / d in
  let r := n mod d in
  match (2 * r ?= d) with
  | Lt => q
  | Gt => q + 1
  | Eq => if Z.even q then q else q + 1
  end.

(** A float that is a multiple of 10^-4: the double nearest to
    [(-1)^neg * units / 10^4].  These are the values [round(x, 4)]
    returns. *)
Record rounded4 := Rounded4 { r_neg : bool; r_units : Z }.

(** The integer nearest (ties to even) to [|x| * k], with the sign of [x];
    [None] on infinities and NaN.  The value of the double is read off its
    mantissa and exponent, so the rounding is of the exact binary value. *)
Definition scaled_rint (k : Z) (x : float) : option rounded4 :=
  match Prim2SF x with
  | S754_zero s => Some (Rounded4 s 0)
  | S754_finite s m e =>
      Some (Rounded4 s
              (if 0 <=? e then Z.pos m * 2 ^ e * k
               else div_half_even (Z.pos m * k) (2 ^ (- e))))
  | _ => None
  end.

(** Python's built-in [round(x, 4)] on a [float]: the correctly rounded
    decimal of the exact binary value, ties to even. *)
Definition py_round4 (x : float) : option rounded4 := scaled_rint 10000 x.

(** [round(x, 4)] on a [numpy.float64] (what [Series.mean()] returns):
    numpy computes [rint(x * 10**4) / 10**4] in double precision. *)
Definition np_round4 (x : float) : option rounded4 :=
  scaled_rint 1 (PrimFloat.mul x (float_of_Z 10000)).

Definition digits (n : Z) : string :=
  NilZero.string_of_uint (N.to_uint (Z.to_N n)).

(** The fractional part, four digits with the trailing zeros removed
    and at least one digit kept. *)
Definition frac4 (f : Z) : string :=
  let d1 := f / 1000 in
  let d2 := (f / 100) mod 10 in
  let d3 := (f / 10) mod 10 in
  let d4 := f mod 10 in
  if d4 =? 0 then
    if d3 =? 0 then
      if d2 =? 0 then digits d1
      else digits d1 +:+ digits d2
    else digits d1 +:+ digits d2 +:+ digits d3
  else digits d1 +:+ digits d2 +:+ digits d3 +:+ digits d4.

(** [str] of such a float.  The shortest decimal that reads back as the
    double nearest to a decimal of at most 15 significant digits is that
    decimal itself, so below 10^15 units this is what Python (and numpy)
    print. *)
Definition str_rounded4 (r : rounded4) : string :=
  (if r_neg r then "-" else "") +:+
  digits (r_units r / 10000) +:+ "." +:+ frac4 (r_units r mod 10000).

(** The values the variable [percentage] takes: the [int] it is
    initialised with, or the float a [round] returned. *)
Inductive number :=
| PyInt (z : Z)
| PyFloat (r : option rounded4).

Definition str_int (z : Z) : string :=
  if z <? 0 then "-" +:+ digits (- z) else digits z.

(** [f"{x}"] *)
Definition format (x : number) : string :=
  match x with
  | PyInt z => str_int z
  | PyFloat (Some r) => str_rounded4 r
  | PyFloat None => "nan"
  end.

(** [mask.mean() * 100] for a boolean mask with [k] true entries out of
    [n]: pandas sums and counts in float64 and divides. *)
Definition mean_times_100 (k n : nat) : float :=
  PrimFloat.mul
    (PrimFloat.div (float_of_Z (Z.of_nat k)) (float_of_Z (Z.of_nat n)))
    (float_of_Z 100).

End PyNum.

(** ** The part of pandas the program calls *)

Module Pandas.

(** A cell of a table.  [VNull] stands for [None], [NaN] and [NaT] alike
    (pandas' [isnull] does not tell them apart); [VFloat] is a float other
    than NaN; [VList] is a Python list kept in an object column.  The
    columns [read_csv] builds hold cells of one kind, or nulls. *)
Inductive value :=
| VNull
| VBool (b : bool)
| VInt (z : Z)
| VFloat (f : float)
| VStr (s : string)
| VList (l : list value).

(** Equality of cells as the hash tables behind [duplicated], [groupby],
    [isin] and [merge] see it: nulls are equal to each other, cells of
    different kinds are not. *)
Fixpoint value_eqb (a b : value) {struct a} : bool :=
  match a, b with
  | VNull, VNull => true
  | VBool x, VBool y => Bool.eqb x y
  | VInt x, VInt y => x =? y
  | VFloat x, VFloat y => PrimFloat.Leibniz.eqb x y
  | VStr x, VStr y => String.eqb x y
  | VList xs, VList ys =>
      (fix all2 (xs ys : list value) {struct xs} : bool :=
         match xs, ys with
         | [], [] => true
         | x :: xs', y :: ys' => value_eqb x y && all2 xs' ys'
         | _, _ => false
         end) xs ys
  | _, _ => false
  end.

Definition is_null (v : value) : bool :=
  match v with VNull => true | _ => false end.

(** The order in which sorted keys come out: numbers by value, strings by
    code point, nulls last.  Keys of different kinds are ordered by kind,
    which only makes the sort total. *)
Definition kind_rank (v : value) : Z :=
  match v with
  | VBool _ => 0 | VInt _ => 1 | VFloat _ => 2 | VStr _ => 3
  | VList _ => 4 | VNull => 5
  end.

Definition value_leb (a b : value) : bool :=
  match a, b with
  | VBool x, VBool y => implb x y
  | VInt x, VInt y => x <=? y
  | VFloat x, VFloat y => PrimFloat.leb x y
  | VStr x, VStr y =>
      match String.compare x y with Gt => false | _ => true end
  | _, _ => kind_rank a <=? kind_rank b
  end.

Fixpoint insert_sorted (k : value) (l : list value) : list value :=
  match l with
  | [] => [k]
  | x :: l' => if value_leb k x then k :: l else x :: insert_sorted k l'
  end.

(** A stable sort. *)
Definition sort_values (l : list value) : list value :=
  fold_right insert_sorted [] l.

Definition mem (v : value) (l : list value) : bool := existsb (value_eqb v) l.

(** The distinct values of a list, each at its first occurrence. *)
Fixpoint distinct (l : list value) : list value :=
  match l with
  | [] => []
  | x :: l' => x :: List.filter (fun y => negb (value_eqb x y)) (distinct l')
  end.

(** Exceptions, by class. *)
Inductive exn :=
| KeyError (key : string)
| IndexError
| ValueError
| TypeError
| AttributeError
| MergeError
| ColumnNotFoundError (msg : string).

Inductive result (A : Type) :=
| Ok (a : A)
| Raise (e : exn).
Arguments Ok {A} a.
Arguments Raise {A} e.

Definition rbind {A B} (c : result A) (k : A -> result B) : result B :=
  match c with Ok a => k a | Raise e => Raise e end.

(** The labels of the column axis: the names of the columns, or the
    [RangeIndex] an axis gets when no label was given. *)
Inductive Columns :=
| ColRange (stop : nat)
| ColNames (names : list string).

Definition column_names (c : Columns) : list string :=
  match c with ColNames l => l | ColRange _ => [] end.

Definition width (c : Columns) : nat :=
  match c with ColNames l => length l | ColRange n => n end.

(** A row: its label in the row index, and its cells in column order. *)
Definition row : Type := value * list value.

Record DataFrame := mkDF {
  index_name : option string;
  columns : Columns;
  rows : list row
}.

Record Series := mkSeries {
  s_name : option string;
  s_index_name : option string;
  s_items : list (value * value)
}.

Fixpoint position (name : string) (l : list string) : option nat :=
  match l with
  | [] => None
  | x :: l' =>
      if String.eqb x name then Some 0%nat else option_map S (position name l')
  end.

Definition names_of (df : DataFrame) : list string := column_names (columns df).

(** [len(df)] *)
Definition len (df : DataFrame) : nat := length (rows df).

(** [df.empty] *)
Definition empty (df : DataFrame) : bool :=
  (len df =? 0)%nat || (width (columns df) =? 0)%nat.

(** [df.index] *)
Definition index (df : DataFrame) : list value := List.map fst (rows df).

Definition cell (i : nat) (r : row) : value := nth i (snd r) VNull.

(** [df[field]]: the column, or [KeyError]. *)
Definition getitem (df : DataFrame) (field : string) : result Series :=
  match position field (names_of df) with
  | Some i =>
      Ok (mkSeries (Some field) (index_name df)
                   (List.map (fun r => (fst r, cell i r)) (rows df)))
  | None => Raise (KeyError field)
  end.

Definition values (s : Series) : list value := List.map snd (s_items s).

(** Boolean masks, one entry per row. *)
Definition isnull (s : Series) : list bool := List.map is_null (values s).
Definition notnull (s : Series) : list bool :=
  List.map (fun v => negb (is_null v)) (values s).
Definition isin (s : Series) (l : list value) : list bool :=
  List.map (fun v => mem v l) (values s).
Definition apply (f : value -> bool) (s : Series) : list bool :=
  List.map f (values s).

Fixpoint mask_and (a b : list bool) : list bool :=
  match a, b with
  | x :: a', y :: b' => (x && y) :: mask_and a' b'
  | _, _ => []
  end.
Definition mask_not (a : list bool) : list bool := List.map negb a.

(** [mask.any()] *)
Definition any (m : list bool) : bool := existsb id m.

Definition count_true (m : list bool) : nat := length (List.filter id m).

(** [mask.mean() * 100] *)
Definition mean_times_100 (m : list bool) : float :=
  PyNum.mean_times_100 (count_true m) (length m).

(** [s.duplicated(keep=False)]: every occurrence of a repeated value. *)
Definition duplicated (s : Series) : list bool :=
  let vs := values s in
  List.map (fun v => (1 <? length (List.filter (value_eqb v) vs))%nat) vs.

(** The entries of [l] where the mask holds. *)
Fixpoint select {A} (l : list A) (m : list bool) : list A :=
  match l, m with
  | x :: l', b :: m' => if b then x :: select l' m' else select l' m'
  | _, _ => []
  end.

(** [df[mask]] and [df.loc[mask]] *)
Definition loc (df : DataFrame) (m : list bool) : DataFrame :=
  mkDF (index_name df) (columns df) (select (rows df) m).

(** [idx[mask]] for a boolean mask. *)
Definition Index_getitem (idx : list value) (m : list bool) : list value :=
  select idx m.

(** Fresh row labels 0, 1, 2, ... *)
Definition range_labels {A} (l : list A) : list (value * A) :=
  combine (List.map (fun i => VInt (Z.of_nat i)) (seq 0 (length l))) l.

(** [pd.DataFrame({'index': idx, flag: True})] *)
Definition DataFrame_index_flag (idx : list value) (flag : string) : DataFrame :=
  mkDF None (ColNames ["index"; flag])
       (range_labels (List.map (fun i => [i; VBool true]) idx)).

(** [pd.DataFrame(columns=names)] *)
Definition DataFrame_columns (names : list string) : DataFrame :=
  mkDF None (ColNames names) [].

(** [pd.DataFrame()]: no row, no column; both axes are a [RangeIndex]. *)
Definition DataFrame_empty : DataFrame := mkDF None (ColRange 0) [].

Definition remove_nth {A} (i : nat) (l : list A) : list A :=
  take i l ++ drop (S i) l.

Definition insert_at {A} (i : nat) (x : A) (l : list A) : list A :=
  take i l ++ x :: drop i l.

(** [df.set_index(name)]: the column becomes the row index. *)
Definition set_index (df : DataFrame) (name : string) : result DataFrame :=
  match position name (names_of df) with
  | Some i =>
      Ok (mkDF (Some name) (ColNames (remove_nth i (names_of df)))
               (List.map (fun r => (cell i r, remove_nth i (snd r))) (rows df)))
  | None => Raise (KeyError name)
  end.

(** [df.reset_index()]: the row labels become the first column, named
    after the index, or [index], or [level_0] when [index] is taken. *)
Definition reset_index (df : DataFrame) : result DataFrame :=
  let names := names_of df in
  let label :=
    match index_name df with
    | Some n => n
    | None => if existsb (String.eqb "index") names then "level_0" else "index"
    end in
  if existsb (String.eqb label) names then Raise ValueError
  else Ok (mkDF None (ColNames (label :: names))
                (range_labels (List.map (fun r => fst r :: snd r) (rows df)))).

(** [df.groupby(by)[col].apply(list)]: one entry per distinct non-null
    value of [by], in sorted order, holding the cells of [col] of the rows
    with that value, in row order. *)
Definition groupby_apply_list (df : DataFrame) (by_ col : string) : result Series :=
  match position by_ (names_of df) with
  | None => Raise (KeyError by_)
  | Some i =>
      match position col (names_of df) with
      | None => Raise (KeyError ("Column not found: " +:+ col))
      | Some j =>
          let keyed := List.map (fun r => (cell i r, cell j r)) (rows df) in
          let keys :=
            sort_values
              (distinct (List.filter (fun k => negb (is_null k)) (List.map fst keyed))) in
          Ok (mkSeries (Some col) (Some by_)
                (List.map
                   (fun k =>
                      (k, VList (List.map snd
                                   (List.filter (fun kv => value_eqb (fst kv) k) keyed))))
                   keys))
      end
  end.

(** [s.reset_index()]: a frame with the index and the values as its two
    columns. *)
Definition Series_reset_index (s : Series) : result DataFrame :=
  let idx := default "index" (s_index_name s) in
  let val := default "0" (s_name s) in
  if String.eqb idx val then Raise ValueError
  else Ok (mkDF None (ColNames [idx; val])
                (range_labels (List.map (fun kv => [fst kv; snd kv]) (s_items s)))).

(** [df.columns = names] *)
Definition set_columns (df : DataFrame) (names : list string) : result DataFrame :=
  if (length names =? width (columns df))%nat
  then Ok (mkDF (index_name df) (ColNames names) (rows df))
  else Raise ValueError.

(** [x.pop(0)] on the object held in a cell: the first element, and the
    list as the call leaves it. *)
Definition pop0 (v : value) : result (value * value) :=
  match v with
  | VList (x :: l) => Ok (x, VList l)
  | VList [] => Raise IndexError
  | _ => Raise AttributeError
  end.

Fixpoint pop0_rows (i : nat) (rs : list row) : result (list value * list row) :=
  match rs with
  | [] => Ok ([], [])
  | r :: rs' =>
      rbind (pop0 (cell i r)) (fun '(x, rest) =>
      rbind (pop0_rows i rs') (fun '(xs, rs'') =>
      Ok (x :: xs, (fst r, <[i := rest]> (snd r)) :: rs'')))
  end.

(** [df[name].apply(lambda x: x.pop(0))].  The lambda receives the very
    list objects the column holds, so the call returns the popped elements
    and leaves the column holding the shortened lists. *)
Definition apply_pop0 (df : DataFrame) (name : string)
  : result (list value * DataFrame) :=
  match position name (names_of df) with
  | None => Raise (KeyError name)
  | Some i =>
      rbind (pop0_rows i (rows df)) (fun '(xs, rs) =>
      Ok (xs, mkDF (index_name df) (columns df) rs))
  end.

(** [df[name] = vals], one value per row: the column is replaced, or added
    as the last one. *)
Definition setitem (df : DataFrame) (name : string) (vals : list value) : DataFrame :=
  match position name (names_of df) with
  | Some i =>
      mkDF (index_name df) (columns df)
           (List.map (fun rv => (fst (fst rv), <[i := snd rv]> (snd (fst rv))))
                     (combine (rows df) vals))
  | None =>
      mkDF (index_name df) (ColNames (names_of df ++ [name]))
           (List.map (fun rv => (fst (fst rv), snd (fst rv) ++ [snd rv]))
                     (combine (rows df) vals))
  end.

Fixpoint positions (names all : list string) : result (list nat) :=
  match names with
  | [] => Ok []
  | n :: names' =>
      match position n all with
      | None => Raise (KeyError n)
      | Some i => rbind (positions names' all) (fun l => Ok (i :: l))
      end
  end.

(** [df[[n1, n2, ...]]] *)
Definition getitem_list (df : DataFrame) (names : list string) : result DataFrame :=
  rbind (positions names (names_of df)) (fun ps =>
  Ok (mkDF (index_name df) (ColNames names)
           (List.map (fun r => (fst r, List.map (fun i => cell i r) ps)) (rows df)))).

(** [pd.to_datetime(s, format=fmt, errors='coerce').isna()].  A null is
    [NaT]; any other cell is [NaT] unless it converts under the format,
    which [strptime] decides. *)
Definition to_datetime_isna (strptime : string -> value -> bool)
           (s : Series) (fmt : string) : list bool :=
  List.map (fun v => if is_null v then true else negb (strptime fmt v)) (values s).

(** The dtype of [np.asarray(df)], as far as indexing with it depends on
    it. *)
Inductive array_dtype := dt_int64 | dt_bool | dt_other.

Definition is_int (v : value) : bool := match v with VInt _ => true | _ => false end.
Definition is_bool (v : value) : bool := match v with VBool _ => true | _ => false end.

Definition asarray_dtype (df : DataFrame) : array_dtype :=
  let cells := List.concat (List.map snd (rows df)) in
  if empty df then dt_other
  else if forallb is_int cells then dt_int64
  else if forallb is_bool cells then dt_bool
  else dt_other.

(** [idx[key]] where [key] is a DataFrame.  [Index.__getitem__] hands a key
    that is neither a scalar, a slice nor a boolean Series, array or list
    to the underlying numpy array, which reads it as the two-dimensional
    array [np.asarray(key)]: an array that is not of integers or booleans
    is refused as an index, a two-dimensional boolean mask does not fit
    the one-dimensional index, and integers select positions, out of
    bounds or into a two-dimensional result that [Index] does not take. *)
Definition Index_getitem_frame (idx : list value) (key : DataFrame)
  : result (list value) :=
  match asarray_dtype key with
  | dt_int64 =>
      let n := Z.of_nat (length idx) in
      let in_bounds c :=
        match c with VInt z => (- n <=? z) && (z <? n) | _ => false end in
      if forallb in_bounds (List.concat (List.map snd (rows key)))
      then Raise ValueError
      else Raise IndexError
  | dt_bool => Raise IndexError
  | dt_other => Raise IndexError
  end.

Definition upper_ascii (c : ascii) : ascii :=
  let n := nat_of_ascii c in
  if ((97 <=? n) && (n <=? 122))%nat then ascii_of_nat (n - 32) else c.

(** [str.upper] on the letters a-z. *)
Fixpoint upper (s : string) : string :=
  match s with
  | EmptyString => EmptyString
  | String c s' => String (upper_ascii c) (upper s')
  end.

(** [cols.str.upper()]: the accessor is there for labels that are strings
    (or for an empty object index) only. *)
Definition Columns_str_upper (c : Columns) : result Columns :=
  match c with
  | ColNames l => Ok (ColNames (List.map upper l))
  | ColRange _ => Raise AttributeError
  end.

Definition with_columns (df : DataFrame) (c : Columns) : DataFrame :=
  mkDF (index_name df) c (rows df).

(** *** [pd.merge(left, right, on=[key], how='outer')] *)

(** Where a frame keeps the join key: in a column, or as its named row
    index ([on] accepts both). *)
Inductive key_place :=
| KeyColumn (i : nat)
| KeyLevel.

Definition find_key (df : DataFrame) (key : string) : result key_place :=
  match position key (names_of df), index_name df with
  | Some i, Some n => if String.eqb n key then Raise ValueError else Ok (KeyColumn i)
  | Some i, None => Ok (KeyColumn i)
  | None, Some n => if String.eqb n key then Ok KeyLevel else Raise (KeyError key)
  | None, None => Raise (KeyError key)
  end.

(** A row as its key and its other cells. *)
Definition split_key (p : key_place) (r : row) : value * list value :=
  match p with
  | KeyColumn i => (cell i r, remove_nth i (snd r))
  | KeyLevel => (fst r, snd r)
  end.

Definition other_names (p : key_place) (names : list string) : list string :=
  match p with
  | KeyColumn i => remove_nth i names
  | KeyLevel => names
  end.

Definition is_str (v : value) : bool := match v with VStr _ => true | _ => false end.

(** Keys that hold text are not merged with keys that hold none, unless
    one side has no row. *)
Definition keys_compatible (lk rk : list value) : bool :=
  match lk, rk with
  | [], _ | _, [] => true
  | _, _ => Bool.eqb (existsb is_str lk) (existsb is_str rk)
  end.

Definition add_suffix (sfx : string) (overlap names : list string) : list string :=
  List.map (fun n => if existsb (String.eqb n) overlap then n +:+ sfx else n) names.

(** A renamed label that repeats an earlier one where the original label
    did not. *)
Fixpoint suffix_duplicates (seen_o seen_r orig renamed : list string) : bool :=
  match orig, renamed with
  | o :: orig', r :: renamed' =>
      (existsb (String.eqb r) seen_r && negb (existsb (String.eqb o) seen_o))
      || suffix_duplicates (o :: seen_o) (r :: seen_r) orig' renamed'
  | _, _ => false
  end.

(** A row of the join: the key, and the other cells of the left and of the
    right row it comes from, where there is one. *)
Definition join_row : Type := value * option (list value) * option (list value).

Definition group_rows (L R : list (value * list value)) (k : value) : list join_row :=
  let ls := List.filter (fun l => value_eqb (fst l) k) L in
  let rs := List.filter (fun r => value_eqb (fst r) k) R in
  match ls, rs with
  | _, [] => List.map (fun l => (k, Some (snd l), None)) ls
  | [], _ => List.map (fun r => (k, None, Some (snd r))) rs
  | _, _ =>
      List.flat_map
        (fun l => List.map (fun r => (k, Some (snd l), Some (snd r))) rs) ls
  end.

(** The full outer join: the keys of both sides in sorted order; under a
    key, the left rows paired with the right rows, or alone. *)
Definition outer_join (L R : list (value * list value)) : list join_row :=
  List.flat_map (group_rows L R)
                (sort_values (distinct (List.map fst L ++ List.map fst R))).

(** The cells of a side, or nulls where the side has no row. *)
Definition fill (n : nat) (o : option (list value)) : list value :=
  match o with Some c => c | None => repeat VNull n end.

Definition left_cells (lp : key_place) (nl : nat) (j : join_row) : list value :=
match lp with
| KeyColumn i => insert_at i (fst (fst j)) (fill nl (snd (fst j)))
| KeyLevel => fill nl (snd (fst j))
end.

(** The cells of a row of the result: those of the left frame, then those
    of the right frame without its key. *)
Definition join_cells (lp : key_place) (nl nr : nat) (j : join_row) : list value :=
left_cells lp nl j ++ fill nr (snd j).

(** The labels of the result: a label both frames have gets the suffixes
    [_x] and [_y]; suffixes that create a duplicate label are refused. *)
Definition merge_labels (lnames rnames : list string)
  : result (list string * list string) :=
let overlap := List.filter (fun n => existsb (String.eqb n) rnames) lnames in
let llabels := add_suffix "_x" overlap lnames in
let rlabels := add_suffix "_y" overlap rnames in
if suffix_duplicates [] [] lnames llabels || suffix_duplicates [] [] rnames rlabels
then Raise MergeError
else Ok (llabels, rlabels).

(** The result frame.  A key that is an index level on both sides stays
    the row index; a key that is an index level on the left only is put back
    as the first column; otherwise it is where the left frame has it. *)
Definition merge_frame (key : string) (lp rp : key_place) (labels : list string)
           (cells : join_row -> list value) (js : list join_row) : DataFrame :=
match lp, rp with
| KeyLevel, KeyLevel =>
    mkDF (Some key) (ColNames labels)
         (List.map (fun j => (fst (fst j), cells j)) js)
| KeyLevel, KeyColumn _ =>
    mkDF None (ColNames (key :: labels))
         (range_labels (List.map (fun j => fst (fst j) :: cells j) js))
| KeyColumn _, _ =>
    mkDF None (ColNames labels) (range_labels (List.map cells js))
end.

Definition merge (left right : DataFrame) (key : string) : result DataFrame :=
rbind (find_key left key) (fun lp =>
rbind (find_key right key) (fun rp =>
let L := List.map (split_key lp) (rows left) in
let R := List.map (split_key rp) (rows right) in
if negb (keys_compatible (List.map fst L) (List.map fst R)) then Raise ValueError
else
  let lnames := names_of left in
  let rnames := other_names rp (names_of right) in
  rbind (merge_labels lnames rnames) (fun '(llabels, rlabels) =>
  let nl := length (other_names lp lnames) in
  let nr := length rnames in
  Ok (merge_frame key lp rp (llabels ++ rlabels) (join_cells lp nl nr)
                  (outer_join L R))))).

End Pandas.

Import PyNum Pandas.

(** ** Configuration values, as [json.load] returns them *)

Inductive json :=
| JNull
| JBool (b : bool)
| JNum (z : Z)
| JStr (s : string)
| JArr (l : list json)
| JObj (o : list (string * json)).

(** A dict keeps its keys in insertion order; a key occurs once. *)
Fixpoint dict_get (k : string) (o : list (string * json)) : option json :=
  match o with
  | [] => None
  | (k', v) :: o' => if String.eqb k' k then Some v else dict_get k o'
  end.

(** Truth value of an object in a condition. *)
Definition truthy (v : json) : bool :=
  match v with
  | JNull => false
  | JBool b => b
  | JNum z => negb (z =? 0)
  | JStr s => negb (String.eqb s "")
  | JArr l => match l with [] => false | _ => true end
  | JObj o => match o with [] => false | _ => true end
  end.

(** [v == s] for a string [s]. *)
Definition eq_str (v : json) (s : string) : bool :=
  match v with JStr s' => String.eqb s' s | _ => false end.

(** [k in v] *)
Definition py_in (k : string) (v : json) : result bool :=
  match v with
  | JObj o => Ok (match dict_get k o with Some _ => true | None => false end)
  | JArr l => Ok (existsb (fun x => eq_str x k) l)
  | JStr s => Ok (match String.index 0 k s with Some _ => true | None => false end)
  | _ => Raise TypeError
  end.

(** [v[k]] for a string [k] *)
Definition py_getitem (v : json) (k : string) : result json :=
  match v with
  | JObj o => match dict_get k o with Some x => Ok x | None => Raise (KeyError k) end
  | _ => Raise TypeError
  end.

(** [v.items()] *)
Definition py_items (v : json) : result (list (string * json)) :=
  match v with
  | JObj o => Ok o
  | _ => Raise AttributeError
  end.

(** ** Statements that may raise and that update [problems] *)

(** [problems: Dict[str, Any] = {}], the module-level registry. *)
Abbreviation registry := (gmap string string).

Definition M (A : Type) : Type := registry -> result A * registry.

Definition ret {A} (a : A) : M A := fun st => (Ok a, st).

Definition raise {A} (e : exn) : M A := fun st => (Raise e, st).

Definition bind {A B} (c : M A) (k : A -> M B) : M B :=
  fun st =>
    match c st with
    | (Ok a, st') => k a st'
    | (Raise e, st') => (Raise e, st')
    end.

(** A call into pandas: it may raise, it does not touch [problems]. *)
Definition lift {A} (r : result A) : M A := fun st => (r, st).

(** [try: c except KeyError: h] *)
Definition try_except_KeyError {A} (c : M A) (h : M A) : M A :=
  fun st =>
    match c st with
    | (Raise (KeyError _), st') => h st'
    | other => other
    end.

Notation "x <- c ;; k" := (bind c (fun x => k))
  (at level 100, c at next level, right associativity).
Notation "' p <- c ;; k" := (bind c (fun p => k))
  (at level 20, p pattern, c at level 99, k at level 100).
Notation "c ;; k" := (bind c (fun _ => k))
  (at level 100, right associativity).

(** ** [file_processor.py] *)

Definition none : string := "none".
Definition unique : string := "unique".
Definition type : string := "type".
Definition int_type : string := "int".
Definition string_type : string := "string".
Definition date_type : string := "date".
Definition country_code_type : string := "country_code".

(** [problems[field] = error] *)
Definition set_percentage_error (field error : string) : M unit :=
  fun st => (Ok tt, <[field := error]> st).

(** [isinstance(x, ...)] and [pd.isnull(x)] on a cell of a table.  A missing
    cell is the float NaN; [bool] is a subclass of [int]. *)
Definition isinstance_str (x : value) : bool :=
  match x with VStr _ => true | _ => false end.
Definition isinstance_int (x : value) : bool :=
  match x with VInt _ | VBool _ => true | _ => false end.
Definition isinstance_float (x : value) : bool :=
  match x with VFloat _ | VNull => true | _ => false end.
Definition pd_isnull (x : value) : bool := is_null x.

Definition validate_unique_fields (df : DataFrame) (field : string) : M DataFrame :=
  col <- lift (getitem df field) ;;
  let duplicates_mask := duplicated col in
  let percentage := PyInt 0 in
  ' (new_df, percentage) <-
    (if any duplicates_mask then
       duplicated_indices <- lift (reset_index (loc df duplicates_mask)) ;;
       grouped_indices <- lift (groupby_apply_list duplicated_indices field "index") ;;
       new_df <- lift (Series_reset_index grouped_indices) ;;
       new_df <- lift (set_columns new_df ["Repeat_" +:+ field; "repeated_indexes"]) ;;
       ' (popped, new_df) <- lift (apply_pop0 new_df "repeated_indexes") ;;
       let new_df := setitem new_df "index" popped in
       new_df <- lift (getitem_list new_df
                         ["index"; "Repeat_" +:+ field; "repeated_indexes"]) ;;
       ret (new_df, PyFloat (np_round4 (mean_times_100 duplicates_mask)))
     else
       ret (DataFrame_columns ["index"; "Repeat_" +:+ field; "repeated_indexes"],
            percentage)) ;;
  set_percentage_error field ("Error_rate: " +:+ format percentage +:+ "%") ;;
  ret new_df.

Definition validate_string_fields (df : DataFrame) (field : string) : M DataFrame :=
  col <- lift (getitem df field) ;;
  let non_string_mask :=
    apply (fun x => negb (isinstance_str x) && negb (pd_isnull x)) col in
  if any non_string_mask then
    let new_df := DataFrame_index_flag (Index_getitem (index df) non_string_mask)
                                       ("NULL_" +:+ field +:+ "_STRING") in
    (* [new_df.set_index('index')]: the result is dropped *)
    _ <- lift (set_index new_df "index") ;;
    let percentage := PyFloat (np_round4 (mean_times_100 non_string_mask)) in
    set_percentage_error field ("Error_rate: " +:+ format percentage +:+ "%") ;;
    ret new_df
  else
    ret (DataFrame_columns ["index"; "NULL_" +:+ field +:+ "_STRING"]).

Definition validate_int_fields (df : DataFrame) (field : string) : M DataFrame :=
  col <- lift (getitem df field) ;;
  let non_null_int_mask :=
    apply (fun x => negb (isinstance_int x || isinstance_float x) && negb (pd_isnull x))
          col in
  if any non_null_int_mask then
    let new_df := DataFrame_index_flag (Index_getitem (index df) non_null_int_mask)
                                       ("NULL_" +:+ field +:+ "_INT") in
    (* [new_df.set_index('index')]: the result is dropped *)
    _ <- lift (set_index new_df "index") ;;
    let percentage := PyFloat (np_round4 (mean_times_100 non_null_int_mask)) in
    set_percentage_error field ("Error_rate: " +:+ format percentage +:+ "%") ;;
    ret new_df
  else
    ret (DataFrame_columns ["index"; "NULL_" +:+ field +:+ "_INT"]).

Definition validate_none_fields (df : DataFrame) (field : string) : M DataFrame :=
  let percentage := PyInt 0 in
  col <- lift (getitem df field) ;;
  let none_mask := isnull col in
  ' (new_df, percentage) <-
    (if any none_mask then
       let new_df := DataFrame_index_flag (Index_getitem (index df) none_mask)
                                          ("NONE_" +:+ field +:+ "_VALUE") in
       new_df <- lift (set_index new_df "index") ;;
       ret (new_df, PyFloat (np_round4 (mean_times_100 none_mask)))
     else
       ret (DataFrame_columns ["index"; "NONE_" +:+ field +:+ "_VALUE"], percentage)) ;;
  set_percentage_error field ("Error_rate: " +:+ format percentage +:+ "%") ;;
  ret new_df.

(** [a / b] on two [int]s. *)
Definition int_truediv (a b : Z) : float :=
  PrimFloat.div (float_of_Z a) (float_of_Z b).

Definition calculate_percentage_error (original merge : DataFrame) : string :=
  let len_ori := Z.of_nat (len original) in
  let len_merge := Z.of_nat (len merge) in
  if len_ori =? len_merge then "0%"
  else if len_ori =? 0 then "0%"
  else
    format (PyFloat (py_round4
                       (PrimFloat.mul (int_truediv (len_ori - len_merge) len_ori)
                                      (float_of_Z 100))))
    +:+ "%".

(** [for x in l: body], threading the variables the body assigns. *)
Fixpoint for_each {A S} (l : list A) (body : A -> S -> M S) (s : S) : M S :=
  match l with
  | [] => ret s
  | x :: l' => s' <- body x s ;; for_each l' body s'
  end.

(** [functools.reduce(f, l)] on a non-empty list, from its first element. *)
Fixpoint reduce (f : DataFrame -> DataFrame -> result DataFrame)
         (acc : DataFrame) (l : list DataFrame) : result DataFrame :=
  match l with
  | [] => Ok acc
  | x :: l' => rbind (f acc x) (fun acc' => reduce f acc' l')
  end.

Definition country_list : list value :=
  List.map VStr
    ["AR"; "BR"; "CL"; "CO"; "CR"; "CU"; "DO"; "EC"; "SV"; "GT"; "HT"; "HN"; "JM";
     "MX"; "NI"; "PA"; "PY"; "PE"; "PR"; "UY"; "VE"].

(** [df.loc[~df[field].isin(country_list) & df[field].notnull()]] *)
Definition non_matching_rows (df : DataFrame) (col : Series) : DataFrame :=
  loc df (mask_and (mask_not (isin col country_list)) (notnull col)).

Section Checks.

(** Two functions of the libraries are taken as they are: whether a cell
    converts to a timestamp under a [strptime] format, and the [str] of an
    arbitrary float. *)
Variable strptime : string -> value -> bool.
Variable float_str : float -> string.

Definition validate_date_format (df : DataFrame) (field : string) : M DataFrame :=
  let formato_deseado := "%Y-%m-%d %H:%M:%S" in
  col <- lift (getitem df field) ;;
  let invalid_format_mask := to_datetime_isna strptime col formato_deseado in
  if any invalid_format_mask then
    let new_df := DataFrame_index_flag (Index_getitem (index df) invalid_format_mask)
                                       ("INVALID_" +:+ field +:+ "_FORMAT") in
    new_df <- lift (set_index new_df "index") ;;
    ret new_df
  else
    ret (DataFrame_columns ["index"; "INVALID_" +:+ field +:+ "_FORMAT"]).

Definition validate_country_codes (df : DataFrame) (field : string) : M DataFrame :=
  col <- lift (getitem df field) ;;
  let non_matching_values := non_matching_rows df col in
  if negb (empty non_matching_values) then
    (* [df.index[non_matching_values]]: the key is the selected frame *)
    idx <- lift (Index_getitem_frame (index df) non_matching_values) ;;
    let new_df := DataFrame_index_flag idx ("NOT_IN_" +:+ field +:+ "_LIST") in
    let percentage :=
      PrimFloat.mul
        (int_truediv (Z.of_nat (len non_matching_values)) (Z.of_nat (len df)))
        (float_of_Z 100) in
    set_percentage_error field ("Error_rate: " +:+ float_str percentage +:+ "%") ;;
    ret new_df
  else
    ret (DataFrame_columns ["index"; "NOT_IN_" +:+ field +:+ "_LIST"]).

(** [k in validations and validations[k]] *)
Definition enabled (validations : json) (k : string) : M bool :=
  present <- lift (py_in k validations) ;;
  if present then v <- lift (py_getitem validations k) ;; ret (truthy v)
  else ret false.

(** [validations[type] == t] *)
Definition type_is (validations : json) (t : string) : M bool :=
  v <- lift (py_getitem validations type) ;; ret (eq_str v t).

(** [if cond: list_df.append(check(df, field))] *)
Definition append_if (cond : bool) (check : M DataFrame) (list_df : list DataFrame)
  : M (list DataFrame) :=
  if cond then t <- check ;; ret (list_df ++ [t]) else ret list_df.

Definition validate_field_dic (df : DataFrame) (field : string) (validations : json)
  : M (list DataFrame) :=
  let list_df := [] in
  try_except_KeyError
    (c <- enabled validations none ;;
     list_df <- append_if c (validate_none_fields df field) list_df ;;
     c <- enabled validations unique ;;
     list_df <- append_if c (validate_unique_fields df field) list_df ;;
     has_type <- lift (py_in type validations) ;;
     if has_type then
       c <- type_is validations int_type ;;
       list_df <- append_if c (validate_int_fields df field) list_df ;;
       c <- type_is validations string_type ;;
       list_df <- append_if c (validate_string_fields df field) list_df ;;
       c <- type_is validations date_type ;;
       list_df <- append_if c (validate_date_format df field) list_df ;;
       c <- type_is validations country_code_type ;;
       list_df <- append_if c (validate_country_codes df field) list_df ;;
       ret list_df
     else ret list_df)
    (raise (ColumnNotFoundError
              ("The DataFrame does not have the expected column: " +:+ field))).

Definition validate_fields_from_json (df : DataFrame) (data_config : json)
  : M DataFrame :=
  let list_df := [] in
  data_valid <- lift (py_getitem data_config "data_valid") ;;
  items <- lift (py_items data_valid) ;;
  list_df <- for_each items
               (fun '(field, validations) list_df =>
                  found <- validate_field_dic df field validations ;;
                  ret (list_df ++ found))
               list_df ;;
  merged_df <-
    match list_df with
    | first :: others =>
        lift (reduce (fun left right => merge left right "index") first others)
    | [] => ret DataFrame_empty
    end ;;
  upper_columns <- lift (Columns_str_upper (columns merged_df)) ;;
  ret (with_columns merged_df upper_columns).

End Checks.

(** The table of the first scenario: rows 2, 3, 4 with one column. *)
Definition table (field : string) (cells : list value) : DataFrame :=
  mkDF None (ColNames [field])
       (List.map (fun '(i, v) => (VInt (2 + Z.of_nat i), [v]))
                 (combine (seq 0 (length cells)) cells)).

Definition emails : DataFrame :=
  table "email" [VStr "a@x.com"; VStr "a@x.com"; VStr "b@x.com"].
Definition codes : DataFrame :=
  table "code" [VStr "AR"; VStr "ZZ"; VNull].
Definition config (field : string) (rules : list (string * json)) : json :=
  JObj [("data_valid", JObj [(field, JObj rules)])].

(** ** Notions the properties are stated with *)

(** The rule of the specification, on the two row counts. *)
Definition spec_percentage (original merged : nat) : string :=
  if ((original =? merged) || (original =? 0))%nat then "0%"
  else
    format
      (PyFloat
         (py_round4
            (PrimFloat.mul
               (int_truediv (Z.of_nat original - Z.of_nat merged) (Z.of_nat original))
               (float_of_Z 100))))
    +:+ "%".

(** A flag table re-indexed by its [index] column: one row per flagged row
    identity, labelled by it. *)
Definition flag_table (idx : list value) (flag : string) : DataFrame :=
  mkDF (Some "index") (ColNames [flag]) (List.map (fun i => (i, [VBool true])) idx).

(** What a rule set asks for, in the words of the specification: the
    presence rule, the uniqueness rule, and a value type among the four
    recognised ones. *)
Definition rule_on (o : list (string * json)) (k : string) : bool :=
match dict_get k o with Some v => truthy v | None => false end.

Definition value_type (o : list (string * json)) (t : string) : bool :=
match dict_get type o with Some v => eq_str v t | None => false end.

Definition configures_check (o : list (string * json)) : bool :=
rule_on o none || rule_on o unique
|| value_type o int_type || value_type o string_type
|| value_type o date_type || value_type o country_code_type.

(** The error the dispatcher raises for a missing column. *)
Definition column_not_found (field : string) : exn :=
ColumnNotFoundError ("The DataFrame does not have the expected column: " +:+ field).

(** The type check a value of [type] selects. *)
Definition type_check (strptime : string -> value -> bool) (float_str : float -> string)
           (t : string) : option (DataFrame -> string -> M DataFrame) :=
if String.eqb t int_type then Some validate_int_fields
else if String.eqb t string_type then Some validate_string_fields
else if String.eqb t date_type then Some (validate_date_format strptime)
else if String.eqb t country_code_type then Some (validate_country_codes float_str)
else None.

(** The row identities a finding table records: the key [index], read from
    the column or from the row index, whichever holds it. *)
Definition row_identities (t : DataFrame) : list value :=
match find_key t "index" with
| Ok p => List.map (fun r => fst (split_key p r)) (rows t)
| Raise _ => []
end.

(** The rows of the join under a key that only the left side, or only the
    right side, has. *)
Definition left_only (L : list (value * list value)) (k : value) : list join_row :=
List.map (fun l => (k, Some (snd l), None))
         (List.filter (fun l => value_eqb (fst l) k) L).

Definition right_only (R : list (value * list value)) (k : value) : list join_row :=
List.map (fun r => (k, None, Some (snd r)))
         (List.filter (fun r => value_eqb (fst r) k) R).

Definition join_keys (L R : list (value * list value)) : list value :=
sort_values (distinct (List.map fst L ++ List.map fst R)).

Definition is_upper (c : ascii) : bool :=
let n := nat_of_ascii c in ((65 <=? n) && (n <=? 90))%nat.

(** The names the checks give to their columns ([NONE_..], [NULL_..],
    [INVALID_..], [NOT_IN_..], [Repeat_..]) start with a capital letter;
    [index] and [repeated_indexes] do not. *)
Definition capital (s : string) : bool :=
match s with String c _ => is_upper c | EmptyString => false end.

(** The three shapes of the tables the checks return: a flag column under
    the row identities as index; the row identities in the column [index]
    beside a flag column; and the table of the uniqueness check. *)
Inductive finding_shape : DataFrame -> Prop :=
| shape_indexed (flag : string) (rs : list row) :
    capital flag = true ->
    finding_shape (mkDF (Some "index") (ColNames [flag]) rs)
| shape_flag (flag : string) (rs : list row) :
    capital flag = true ->
    finding_shape (mkDF None (ColNames ["index"; flag]) rs)
| shape_repeat (rep : string) (rs : list row) :
    capital rep = true ->
    finding_shape (mkDF None (ColNames ["index"; rep; "repeated_indexes"]) rs).

(** A finding table: one of these shapes, a cell per column in every row,
    and row identities that are integers. *)
Record finding_table (t : DataFrame) : Prop := {
  ft_shape : finding_shape t;
  ft_cells : Forall (fun r => length (snd r) = width (columns t)) (rows t);
  ft_ids : Forall (fun k => is_int k = true) (row_identities t)
}.

(** Where a table keeps its row identities. *)
Definition key_of (t : DataFrame) : key_place :=
match find_key t "index" with Ok p => p | Raise _ => KeyLevel end.

Definition row_identity (t : DataFrame) (r : row) : value :=
fst (split_key (key_of t) r).

(** The cells of a row under the columns that are not the key. *)
Definition flag_cells (t : DataFrame) (r : row) : list value :=
snd (split_key (key_of t) r).

Definition flag_count (t : DataFrame) : nat :=
length (other_names (key_of t) (names_of t)).

(** Whether the labels of a merged frame leave its key where
    [merge_frame] put it. *)
Definition labels_fit (lp rp : key_place) (labels : list string) : Prop :=
match lp, rp with
| KeyLevel, KeyLevel => position "index" labels = None
| KeyLevel, KeyColumn _ => True
| KeyColumn _, _ => position "index" labels = Some 0%nat
end.

Definition is_digit (c : ascii) : bool :=
let n := nat_of_ascii c in ((48 <=? n) && (n <=? 57))%nat.

(** [s] follows [pat], where a [d] of the pattern stands for a digit. *)
Fixpoint like_pattern (pat s : string) : bool :=
match pat, s with
| EmptyString, EmptyString => true
| String p pat', String c s' =>
    (if Ascii.eqb p "d" then is_digit c else Ascii.eqb p c) && like_pattern pat' s'
| _, _ => false
end.

(** A stand-in for the two library functions, for the instances below: a
    text converts when it is written as [dddd-dd-dd dd:dd:dd], and a float
    is printed to four decimals. *)
Definition strptime_shape (fmt : string) (v : value) : bool :=
match v with
| VStr s => String.eqb fmt "%Y-%m-%d %H:%M:%S" && like_pattern "dddd-dd-dd dd:dd:dd" s
| _ => false
end.

Definition float_str_round4 (x : float) : string := format (PyFloat (py_round4 x)).

Definition presence_of_row_2 : DataFrame := flag_table [VInt 2] "NONE_code_VALUE".
Definition not_int_row_3 : DataFrame := DataFrame_index_flag [VInt 3] "NULL_code_INT".

(** What [x.pop(0)] returns and leaves, for a cell that holds a non-empty
    list. *)
Definition first_of (v : value) : value :=
match v with VList (x :: _) => x | _ => VNull end.

Definition rest_of (v : value) : value :=
match v with VList (_ :: l) => VList l | _ => v end.

(** ** Notions the further properties are stated with *)

(** The registry entry of a check for a mask: the rounded share of flagged
    rows, or the [int] zero the percentage starts from when no row is
    flagged. *)
Definition rate_message (m : list bool) : string :=
"Error_rate: "
+:+ format (if any m then PyFloat (np_round4 (mean_times_100 m)) else PyInt 0)
+:+ "%".

(** The row identities of the rows of a table that satisfy a predicate, in
    row order. *)
Definition identities_where (p : row -> bool) (df : DataFrame) : list value :=
List.map fst (List.filter p (rows df)).

(** The lambdas of the integer and of the string check. *)
Definition not_a_number (x : value) : bool :=
negb (isinstance_int x || isinstance_float x) && negb (pd_isnull x).

Definition not_a_string (x : value) : bool :=
negb (isinstance_str x) && negb (pd_isnull x).

(** A cell the date-format check refuses. *)
Definition not_a_date (strptime : string -> value -> bool) (x : value) : bool :=
if is_null x then true else negb (strptime "%Y-%m-%d %H:%M:%S" x).

(** A cell the country-code check selects. *)
Definition not_a_country (x : value) : bool :=
negb (mem x country_list) && negb (is_null x).






(** The loop of [validate_fields_from_json]: the tables of every field, in
    the order of the configuration. *)
Definition dispatch_fields (strptime : string -> value -> bool)
           (float_str : float -> string) (df : DataFrame)
           (items : list (string * json)) (list_df : list DataFrame)
  : M (list DataFrame) :=
for_each items
  (fun '(field, validations) list_df =>
     found <- validate_field_dic strptime float_str df field validations ;;
     ret (list_df ++ found))
  list_df.

(** [verify_columns(df, expected_columns)]: every expected name is among
    the column labels, or [ValueError]. *)
Definition verify_columns (df : DataFrame) (expected_columns : list string)
  : result unit :=
let actual_columns := names_of df in
if forallb (fun c => existsb (String.eqb c) actual_columns) expected_columns
then Ok tt
else Raise ValueError.

(** A [RangeIndex] with step 1, as its start and its stop. *)
Definition RangeIndex : Type := (Z * Z)%type.

(** [idx + n] on a [RangeIndex] is the range moved by [n]. *)
Definition RangeIndex_add (idx : RangeIndex) (n : Z) : RangeIndex :=
(fst idx + n, snd idx + n).

Definition RangeIndex_labels (idx : RangeIndex) : list value :=
List.map (fun i => VInt (fst idx + Z.of_nat i))
         (seq 0 (Z.to_nat (snd idx - fst idx))).

(** The two assignments of [extract_data], on the column names and the
    records [read_csv] parsed: the frame of the records under the default
    index, a [RangeIndex] from 0, then [df.index = df.index + 2]. *)
Definition extract_data_frame (names : list string) (records : list (list value))
  : DataFrame :=
let default_index : RangeIndex := (0, Z.of_nat (length records)) in
let df := mkDF None (ColNames names)
               (combine (RangeIndex_labels default_index) records) in
mkDF (index_name df) (columns df)
     (combine (RangeIndex_labels (RangeIndex_add default_index 2))
              (List.map snd (rows df))).

(** The end of [validate_fields_from_json]: the tables merged, then the
    column names in upper case. *)
Definition merged_report (list_df : list DataFrame) : M DataFrame :=
merged_df <-
  match list_df with
  | first :: others =>
      lift (reduce (fun left right => merge left right "index") first others)
  | [] => ret DataFrame_empty
  end ;;
upper_columns <- lift (Columns_str_upper (columns merged_df)) ;;
ret (with_columns merged_df upper_columns).

(** * Properties *)

(** ** Numbers *)

Example format_two_thirds :
  PyNum.format (PyNum.PyFloat (PyNum.np_round4 (PyNum.mean_times_100 2 3))) = "66.6667".
Proof. vm_compute. reflexivity. Qed.

Example format_zero_int : PyNum.format (PyNum.PyInt 0) = "0".
Proof. reflexivity. Qed.

Example format_half :
  PyNum.format (PyNum.PyFloat (PyNum.np_round4 (PyNum.mean_times_100 1 2))) = "50.0".
Proof. vm_compute. reflexivity. Qed.

(** ** The scenarios of the specification *)

Section Scenarios.

Variable strptime : string -> value -> bool.
Variable float_str : float -> string.
Variable st : registry.

(** C1.  On the column ["AR"; "ZZ"; null] the country-code check does not
    return a finding table that flags the row of "ZZ": the rows it selects
    are used as the key into [df.index], which raises [IndexError].  The
    dispatcher only turns a [KeyError] into its own error, so the
    [IndexError] leaves the entry point as it is, and nothing is written
    to the registry. *)
Theorem country_code_scenario_raises :
  rows (non_matching_rows codes (mkSeries (Some "code") None
          [(VInt 2, VStr "AR"); (VInt 3, VStr "ZZ"); (VInt 4, VNull)]))
    = [(VInt 3, [VStr "ZZ"])]
  /\ validate_country_codes float_str codes "code" st = (Raise IndexError, st)
  /\ validate_field_dic strptime float_str codes "code"
       (JObj [(type, JStr country_code_type)]) st = (Raise IndexError, st)
  /\ validate_fields_from_json strptime float_str codes
       (config "code" [(type, JStr country_code_type)]) st = (Raise IndexError, st).
Proof. repeat split; reflexivity. Qed.

(** C2.  When no check is selected the entry point does not return the
    empty report: it builds [pd.DataFrame()] and then asks for
    [.columns.str], which the [RangeIndex] of an empty frame does not
    have; [AttributeError] is raised, for every table. *)
Theorem no_check_selected_raises (df : DataFrame) :
  validate_fields_from_json strptime float_str df
    (JObj [("data_valid", JObj [])]) st = (Raise AttributeError, st)
  /\ validate_fields_from_json strptime float_str df
       (config "code" [(none, JBool false); (type, JStr "float")]) st
     = (Raise AttributeError, st).
Proof. split; reflexivity. Qed.

(** C4.  Rows 2, 3, 4 with emails a@x.com, a@x.com, b@x.com and only the
    uniqueness rule on [email]: the report has one row, for row identity
    2, with the repeated value a@x.com and the other occurrence [3]; the
    registry entry of [email] becomes "Error_rate: 66.6667%". *)
Theorem unique_email_scenario :
  validate_fields_from_json strptime float_str emails
    (config "email" [(unique, JBool true)]) st
  = (Ok (mkDF None (ColNames ["INDEX"; "REPEAT_EMAIL"; "REPEATED_INDEXES"])
              [(VInt 0, [VInt 2; VStr "a@x.com"; VList [VInt 3]])]),
     <["email" := "Error_rate: 66.6667%"]> st)
  /\ snd (validate_fields_from_json strptime float_str emails
            (config "email" [(unique, JBool true)]) st) !! "email"
     = Some "Error_rate: 66.6667%".
Proof.
  split; [reflexivity|].
  change (snd (validate_fields_from_json strptime float_str emails
                 (config "email" [(unique, JBool true)]) st))
    with (<["email" := "Error_rate: 66.6667%"]> st).
  apply lookup_insert_eq.
Qed.

End Scenarios.

(** ** The report percentage *)

(** C5.  The percentage is "0%" when the two row counts are equal or the
    original count is zero, and otherwise the rounded
    [((original - merged) / original) * 100] followed by "%". *)
Theorem calculate_percentage_error_spec (original merge : DataFrame) :
  calculate_percentage_error original merge
  = spec_percentage (len original) (len merge).
Proof.
  unfold calculate_percentage_error, spec_percentage.
  destruct (Nat.eqb_spec (len original) (len merge)) as [e|ne].
  - rewrite e, Z.eqb_refl. reflexivity.
  - destruct (Z.eqb_spec (Z.of_nat (len original)) (Z.of_nat (len merge))) as [e|_];
      [lia|].
    destruct (Nat.eqb_spec (len original) 0) as [e|ne0].
    + rewrite e. reflexivity.
    + destruct (Z.eqb_spec (Z.of_nat (len original)) 0) as [e|_]; [lia|].
      reflexivity.
Qed.

Example percentage_three_of_three : calculate_percentage_error codes emails = "0%".
Proof. reflexivity. Qed.

Example percentage_one_of_three :
  calculate_percentage_error codes (loc emails [true; false; false]) = "66.6667%".
Proof. reflexivity. Qed.

Example percentage_growth :
  calculate_percentage_error (loc emails [true; false; false]) codes = "-200.0%".
Proof. reflexivity. Qed.

(** ** Tables built by the checks *)

Lemma map_snd_range_labels {A B} (g : A -> B) (l : list A) :
  List.map (fun r => g (snd r)) (range_labels l) = List.map g l.
Proof.
  unfold range_labels. generalize 0%nat.
  induction l as [|x l IH]; intros n; simpl; [reflexivity|].
  f_equal. apply IH.
Qed.

Lemma length_range_labels {A} (l : list A) : length (range_labels l) = length l.
Proof.
  unfold range_labels.
  rewrite length_combine, length_map, length_seq. lia.
Qed.

Lemma set_index_index_flag (idx : list value) (flag : string) :
  set_index (DataFrame_index_flag idx flag) "index" = Ok (flag_table idx flag).
Proof.
  unfold set_index, DataFrame_index_flag, flag_table, names_of. simpl.
  do 2 f_equal.
  rewrite (map_snd_range_labels (fun c => (nth 0 c VNull, remove_nth 0 c))).
  rewrite List.map_map. reflexivity.
Qed.

(** ** The date-format check and the registry *)

(** C9.  The date-format check leaves the error-rate registry as it found
    it, whatever the table, the field and the outcome. *)
Theorem validate_date_format_keeps_registry
        (strptime : string -> value -> bool)
        (df : DataFrame) (field : string) (st : registry) :
  snd (validate_date_format strptime df field st) = st.
Proof.
  unfold validate_date_format, bind, lift, ret.
  destruct (getitem df field) as [col|e]; [|reflexivity].
  cbv beta iota.
  destruct (any _); [|reflexivity].
  rewrite set_index_index_flag. reflexivity.
Qed.

(** ** The presence check *)

Lemma any_false_iff (m : list bool) : any m = false <-> Forall (fun b => b = false) m.
Proof.
  unfold any. induction m as [|b m IH]; simpl.
  - split; [constructor|reflexivity].
  - rewrite orb_false_iff, IH. split.
    + intros [Hb Hm]. constructor; assumption.
    + intros H. inversion H; subst. split; [reflexivity|assumption].
Qed.

(** C3, as the program has it.  When the field is a column with no null
    value, the presence check returns the empty table with the columns
    [index] and [NONE_<field>_VALUE], and writes "Error_rate: 0%" (the
    [int] zero the percentage starts from, not a float) under the field. *)
Theorem presence_no_nulls (df : DataFrame) (field : string) (col : Series)
        (st : registry) :
  getitem df field = Ok col ->
  Forall (fun v => is_null v = false) (values col) ->
  validate_none_fields df field st
  = (Ok (DataFrame_columns ["index"; "NONE_" +:+ field +:+ "_VALUE"]),
     <[field := "Error_rate: 0%"]> st).
Proof.
  intros Hcol Hnn.
  unfold validate_none_fields, bind, lift. rewrite Hcol.
  assert (any (isnull col) = false) as ->.
  { apply any_false_iff. unfold isnull. apply Forall_map. exact Hnn. }
  reflexivity.
Qed.

Lemma presence_no_nulls_witness :
  validate_none_fields emails "email" ∅
  = (Ok (DataFrame_columns ["index"; "NONE_email_VALUE"]),
     <["email" := "Error_rate: 0%"]> ∅).
Proof.
  apply (presence_no_nulls emails "email"
           (mkSeries (Some "email") None
              [(VInt 2, VStr "a@x.com"); (VInt 3, VStr "a@x.com");
               (VInt 4, VStr "b@x.com")])).
  - reflexivity.
  - repeat constructor.
Defined.

(** C3, as the specification words it, fails: on a table of three rows
    with no null email the entry written is "Error_rate: 0%", which is not
    "Error_rate: 0.0%". *)
Lemma presence_zero_rate_is_not_float :
  len emails = 3%nat
  /\ Forall (fun r => is_null (cell 0 r) = false) (rows emails)
  /\ snd (validate_none_fields emails "email" ∅) !! "email" = Some "Error_rate: 0%"
  /\ snd (validate_none_fields emails "email" ∅) !! "email" <> Some "Error_rate: 0.0%".
Proof.
  assert (snd (validate_none_fields emails "email" ∅) !! "email"
          = Some "Error_rate: 0%") as H.
  { change (snd (validate_none_fields emails "email" ∅))
      with (<["email" := "Error_rate: 0%"]> (∅ : registry)).
    apply lookup_insert_eq. }
  split; [reflexivity|].
  split; [repeat constructor|].
  split; [exact H|].
  rewrite H. discriminate.
Qed.

(** ** A field that is not a column *)

Lemma getitem_missing (df : DataFrame) (field : string) :
position field (names_of df) = None -> getitem df field = Raise (KeyError field).
Proof. intros H. unfold getitem. rewrite H. reflexivity. Qed.

Section MissingColumn.

Variable strptime : string -> value -> bool.
Variable float_str : float -> string.
Variables (df : DataFrame) (field : string).
Hypothesis missing : position field (names_of df) = None.

Ltac first_line :=
  intros st;
  match goal with |- ?f _ _ _ = _ => unfold f | |- ?f _ _ _ _ = _ => unfold f end;
  unfold bind, lift; rewrite (getitem_missing df field missing); reflexivity.

Lemma validate_none_fields_missing st :
  validate_none_fields df field st = (Raise (KeyError field), st).
Proof. revert st. first_line. Qed.

Lemma validate_unique_fields_missing st :
  validate_unique_fields df field st = (Raise (KeyError field), st).
Proof. revert st. first_line. Qed.

Lemma validate_int_fields_missing st :
  validate_int_fields df field st = (Raise (KeyError field), st).
Proof. revert st. first_line. Qed.

Lemma validate_string_fields_missing st :
  validate_string_fields df field st = (Raise (KeyError field), st).
Proof. revert st. first_line. Qed.

Lemma validate_date_format_missing st :
  validate_date_format strptime df field st = (Raise (KeyError field), st).
Proof. revert st. first_line. Qed.

Lemma validate_country_codes_missing st :
  validate_country_codes float_str df field st = (Raise (KeyError field), st).
Proof. revert st. first_line. Qed.

End MissingColumn.

(** ** The dispatcher *)

Section Dispatch.

Variable strptime : string -> value -> bool.
Variable float_str : float -> string.
Variables (df : DataFrame) (field : string).

(** C6.  When the field is not a column of the table and its rule set
    configures at least one check, the dispatcher raises the column-not-found
    error, whose message ends with the name of the field; no list of tables
    is returned and the registry is untouched. *)
Theorem dispatch_missing_column (o : list (string * json)) (st : registry) :
  position field (names_of df) = None ->
  configures_check o = true ->
  validate_field_dic strptime float_str df field (JObj o) st
  = (Raise (column_not_found field), st).
Proof.
  intros missing Hcfg.
  unfold configures_check, rule_on, value_type in Hcfg.
  unfold validate_field_dic, try_except_KeyError, enabled, type_is, append_if,
    bind, lift, ret, py_in, py_getitem.
  destruct (dict_get none o) as [vn|]; [destruct (truthy vn)|];
    try (rewrite (validate_none_fields_missing df field missing); reflexivity);
    (destruct (dict_get unique o) as [vu|]; [destruct (truthy vu)|];
     try (rewrite (validate_unique_fields_missing df field missing); reflexivity));
    (destruct (dict_get type o) as [vt|]; [|discriminate Hcfg]);
    simpl in Hcfg;
    (destruct (eq_str vt int_type);
     [rewrite (validate_int_fields_missing df field missing); reflexivity|]);
    (destruct (eq_str vt string_type);
     [rewrite (validate_string_fields_missing df field missing); reflexivity|]);
    (destruct (eq_str vt date_type);
     [rewrite (validate_date_format_missing strptime df field missing); reflexivity|]);
    (destruct (eq_str vt country_code_type);
     [rewrite (validate_country_codes_missing float_str df field missing); reflexivity|]);
    discriminate Hcfg.
Qed.

(** C7.  With the presence rule, the uniqueness rule and a recognised
    value type all set, the dispatcher is the presence check, then the
    uniqueness check, then the one type check the value type selects, run in
    that order on the registry, and it returns their three tables in that
    order; a [KeyError] of any of them becomes the column-not-found error. *)
Theorem dispatch_order (o : list (string * json)) (t : string)
        (check : DataFrame -> string -> M DataFrame) (st : registry) :
  rule_on o none = true ->
  rule_on o unique = true ->
  dict_get type o = Some (JStr t) ->
  type_check strptime float_str t = Some check ->
  validate_field_dic strptime float_str df field (JObj o) st
  = try_except_KeyError
      (presence <- validate_none_fields df field ;;
       uniqueness <- validate_unique_fields df field ;;
       of_type <- check df field ;;
       ret [presence; uniqueness; of_type])
      (raise (column_not_found field)) st.
Proof.
  unfold rule_on, type_check. intros Hn Hu Ht Hc.
  unfold validate_field_dic, try_except_KeyError, enabled, type_is, append_if,
    bind, lift, ret, py_in, py_getitem.
  destruct (dict_get none o) as [vn|]; [|discriminate Hn]. rewrite Hn.
  destruct (dict_get unique o) as [vu|]; [|discriminate Hu]. rewrite Hu.
  rewrite Ht.
  destruct (validate_none_fields df field st) as [[a|e] st1]; [|reflexivity].
  destruct (validate_unique_fields df field st1) as [[b|e] st2]; [|reflexivity].
  destruct (String.eqb_spec t int_type) as [->|_].
  { injection Hc as <-. simpl.
    destruct (validate_int_fields df field st2) as [[c|e] st3]; reflexivity. }
  destruct (String.eqb_spec t string_type) as [->|_].
  { injection Hc as <-. simpl.
    destruct (validate_string_fields df field st2) as [[c|e] st3]; reflexivity. }
  destruct (String.eqb_spec t date_type) as [->|_].
  { injection Hc as <-. simpl.
    destruct (validate_date_format strptime df field st2) as [[c|e] st3]; reflexivity. }
  destruct (String.eqb_spec t country_code_type) as [->|_]; [|discriminate Hc].
  injection Hc as <-. simpl.
  destruct (validate_country_codes float_str df field st2) as [[c|e] st3]; reflexivity.
Qed.

End Dispatch.

(** ** Null cells and the type checks *)

Lemma row_identities_flag_table (idx : list value) (flag : string) :
  position "index" [flag] = None ->
  row_identities (flag_table idx flag) = idx.
Proof.
  intros H. unfold row_identities, find_key, flag_table, names_of. simpl columns.
  simpl column_names. rewrite H. simpl.
  rewrite List.map_map. simpl. apply List.map_id.
Qed.

Lemma row_identities_index_flag (idx : list value) (flag : string) :
  row_identities (DataFrame_index_flag idx flag) = idx.
Proof.
  unfold row_identities, DataFrame_index_flag. simpl.
  rewrite (map_snd_range_labels (fun c => nth 0 c VNull)).
  rewrite List.map_map. simpl. apply List.map_id.
Qed.

Lemma select_map {A B} (g : A -> B) (f : A -> bool) (l : list A) :
  select (List.map g l) (List.map f l) = List.map g (List.filter f l).
Proof.
  induction l as [|x l IH]; simpl; [reflexivity|].
  destruct (f x); simpl; rewrite IH; reflexivity.
Qed.

Lemma select_self {A} (f : A -> bool) (l : list A) :
  select l (List.map f l) = List.filter f l.
Proof.
  induction l as [|x l IH]; simpl; [reflexivity|].
  destruct (f x); simpl; rewrite IH; reflexivity.
Qed.

Lemma any_map_true {A} (f : A -> bool) (l : list A) (x : A) :
  In x l -> f x = true -> any (List.map f l) = true.
Proof.
  intros Hin Hf. unfold any. apply existsb_exists.
  exists true. split; [|reflexivity].
  apply in_map_iff. exists x. split; assumption.
Qed.

Lemma NoDup_map_eq {A B} (g : A -> B) (l : list A) (x y : A) :
  List.NoDup (List.map g l) -> In x l -> In y l -> g x = g y -> x = y.
Proof.
  induction l as [|z l IH]; simpl; intros Hnd Hx Hy Heq; [contradiction|].
  inversion Hnd as [|? ? Hnotin Hnd']; subst.
  destruct Hx as [->|Hx], Hy as [->|Hy].
  - reflexivity.
  - exfalso. apply Hnotin. rewrite Heq. apply in_map. exact Hy.
  - exfalso. apply Hnotin. rewrite <- Heq. apply in_map. exact Hx.
  - apply IH; assumption.
Qed.

Lemma getitem_values (df : DataFrame) (field : string) (i : nat) :
  position field (names_of df) = Some i ->
  exists col, getitem df field = Ok col
              /\ values col = List.map (cell i) (rows df).
Proof.
  intros H. unfold getitem. rewrite H. eexists. split; [reflexivity|].
  unfold values. simpl. rewrite List.map_map. reflexivity.
Qed.

(** The rows of a table that a mask built from the field selects. *)
Lemma flagged_by_mask (df : DataFrame) (i : nat) (f : value -> bool) :
  Index_getitem (index df) (List.map f (List.map (cell i) (rows df)))
  = List.map fst (List.filter (fun r => f (cell i r)) (rows df)).
Proof.
  unfold Index_getitem, index. rewrite List.map_map. apply select_map.
Qed.

Lemma null_row_not_flagged (df : DataFrame) (i : nat) (f : value -> bool) (r : row) :
  List.NoDup (index df) -> In r (rows df) -> f (cell i r) = false ->
  ~ In (fst r) (List.map fst (List.filter (fun r => f (cell i r)) (rows df))).
Proof.
  intros Hnd Hin Hf Hflag.
  apply in_map_iff in Hflag as [r' [Heq Hr']].
  apply filter_In in Hr' as [Hr' Hf'].
  assert (r' = r) as -> by (eapply (NoDup_map_eq fst); eassumption).
  congruence.
Qed.

Lemma mask_and_map {A} (f g : A -> bool) (l : list A) :
  mask_and (List.map f l) (List.map g l) = List.map (fun x => f x && g x) l.
Proof.
  induction l as [|x l IH]; simpl; [reflexivity|]. rewrite IH. reflexivity.
Qed.

(** Indexing an index with a frame never returns. *)
Lemma Index_getitem_frame_raises (idx : list value) (key : DataFrame) :
  exists e, Index_getitem_frame idx key = Raise e.
Proof.
  unfold Index_getitem_frame.
  destruct (asarray_dtype key); [destruct (forallb _ _)|..]; eexists; reflexivity.
Qed.

Section NullCells.

Variable strptime : string -> value -> bool.
Variable float_str : float -> string.

(** C10.  Take a table whose row identities are distinct, a field that is
    one of its columns, and a row whose cell for the field is null.  The
    date-format check returns a table that records the row; the integer
    check and the string check return tables that do not; the country-code
    check leaves the row out of the rows it selects, and a table it returns
    does not record it. *)
Theorem null_cell_flagged_by_date_only
        (df : DataFrame) (field : string) (i : nat) (r : row) (st : registry) :
  List.NoDup (index df) ->
  position field (names_of df) = Some i ->
  In r (rows df) ->
  cell i r = VNull ->
  (exists t, validate_date_format strptime df field st = (Ok t, st)
             /\ In (fst r) (row_identities t))
  /\ (exists t st', validate_int_fields df field st = (Ok t, st')
                    /\ ~ In (fst r) (row_identities t))
  /\ (exists t st', validate_string_fields df field st = (Ok t, st')
                    /\ ~ In (fst r) (row_identities t))
  /\ (exists col, getitem df field = Ok col
                  /\ ~ In r (rows (non_matching_rows df col)))
  /\ (forall t st', validate_country_codes float_str df field st = (Ok t, st') ->
                    ~ In (fst r) (row_identities t)).
Proof.
  intros Hnd Hpos Hin Hnull.
  destruct (getitem_values df field i Hpos) as [col [Hcol Hvals]].
  split; [|split; [|split; [|split]]].
  - unfold validate_date_format, bind, lift, ret. rewrite Hcol.
    unfold to_datetime_isna. rewrite Hvals.
    rewrite (any_map_true _ _ (cell i r)); [|apply in_map; exact Hin|rewrite Hnull; reflexivity].
    rewrite set_index_index_flag. eexists. split; [reflexivity|].
    rewrite row_identities_flag_table by reflexivity.
    rewrite flagged_by_mask. apply in_map.
    apply filter_In. split; [exact Hin|]. rewrite Hnull. reflexivity.
  - unfold validate_int_fields, bind, lift, ret. rewrite Hcol.
    unfold apply. rewrite Hvals.
    destruct (any _).
    + rewrite set_index_index_flag. do 2 eexists. split; [reflexivity|].
      rewrite row_identities_index_flag, flagged_by_mask.
      apply (null_row_not_flagged df i
               (fun x => negb (isinstance_int x || isinstance_float x)
                         && negb (pd_isnull x)));
        [assumption..|]. rewrite Hnull. reflexivity.
    + do 2 eexists. split; [reflexivity|]. intros [].
  - unfold validate_string_fields, bind, lift, ret. rewrite Hcol.
    unfold apply. rewrite Hvals.
    destruct (any _).
    + rewrite set_index_index_flag. do 2 eexists. split; [reflexivity|].
      rewrite row_identities_index_flag, flagged_by_mask.
      apply (null_row_not_flagged df i
               (fun x => negb (isinstance_str x) && negb (pd_isnull x)));
        [assumption..|]. rewrite Hnull. reflexivity.
    + do 2 eexists. split; [reflexivity|]. intros [].
  - exists col. split; [exact Hcol|].
    unfold non_matching_rows, loc, isin, notnull, mask_not. simpl rows.
    rewrite Hvals, !List.map_map, mask_and_map, select_self.
    intros Hsel. apply filter_In in Hsel as [_ Hsel].
    rewrite Hnull in Hsel. discriminate Hsel.
  - intros t st'. unfold validate_country_codes, bind, lift, ret. rewrite Hcol.
    destruct (negb (empty (non_matching_rows df col))).
    + destruct (Index_getitem_frame_raises (index df) (non_matching_rows df col))
        as [e ->].
      discriminate.
    + intros [= <- _]. intros [].
Qed.

End NullCells.

(** ** The merge of two finding tables *)

Lemma value_eqb_refl : forall a, value_eqb a a = true.
Proof.
  fix IH 1. intros [| b | z | f | s | l]; simpl.
  - reflexivity.
  - destruct b; reflexivity.
  - apply Z.eqb_refl.
  - apply FloatAxioms.Leibniz.eqb_spec. reflexivity.
  - apply String.eqb_refl.
  - induction l as [|x l IHl]; [reflexivity|].
    rewrite (IH x). exact IHl.
Qed.

Lemma value_eqb_true : forall a b, value_eqb a b = true -> a = b.
Proof.
  fix IH 1. intros a b. destruct a as [| x | x | x | x | l], b as [| y | y | y | y | l'];
    simpl; try discriminate; intros H.
  - reflexivity.
  - apply Bool.eqb_prop in H. congruence.
  - apply Z.eqb_eq in H. congruence.
  - apply FloatAxioms.Leibniz.eqb_spec in H. congruence.
  - apply String.eqb_eq in H. congruence.
  - f_equal. revert l' H.
    induction l as [|x l IHl]; intros [|y l'] H; try discriminate H.
    + reflexivity.
    + apply andb_prop in H as [Hx Hl].
      rewrite (IH x y Hx), (IHl l' Hl). reflexivity.
Qed.

Lemma value_eqb_eq (a b : value) : value_eqb a b = true <-> a = b.
Proof.
  split; [apply value_eqb_true|]. intros ->. apply value_eqb_refl.
Qed.

Lemma mem_In (v : value) (l : list value) : mem v l = true <-> In v l.
Proof.
  unfold mem. rewrite existsb_exists. split.
  - intros [x [Hx Heq]]. apply value_eqb_eq in Heq. subst. exact Hx.
  - intros H. exists v. split; [exact H|apply value_eqb_refl].
Qed.

Lemma In_distinct (x : value) (l : list value) : In x (distinct l) <-> In x l.
Proof.
  induction l as [|y l IH]; simpl; [tauto|].
  rewrite filter_In, IH. split.
  - intros [H|[H _]]; auto.
  - intros [H|H]; [left; exact H|].
    destruct (value_eqb y x) eqn:E.
    + left. apply value_eqb_eq. exact E.
    + right. split; [exact H|]. reflexivity.
Qed.

Lemma NoDup_filter {A} (f : A -> bool) (l : list A) :
  List.NoDup l -> List.NoDup (List.filter f l).
Proof.
  induction 1 as [|x l Hx Hl IH]; simpl; [constructor|].
  destruct (f x); [|exact IH].
  constructor; [|exact IH]. intros H. apply filter_In in H. tauto.
Qed.

Lemma NoDup_distinct (l : list value) : List.NoDup (distinct l).
Proof.
  induction l as [|y l IH]; simpl; constructor.
  - intros H. apply filter_In in H as [_ H]. cbv beta in H.
    rewrite value_eqb_refl in H. discriminate H.
  - apply NoDup_filter. exact IH.
Qed.

Lemma insert_sorted_perm (k : value) (l : list value) :
  Permutation (insert_sorted k l) (k :: l).
Proof.
  induction l as [|x l IH]; simpl; [reflexivity|].
  destruct (value_leb k x); [reflexivity|].
  rewrite IH. apply perm_swap.
Qed.

Lemma sort_values_perm (l : list value) : Permutation (sort_values l) l.
Proof.
  unfold sort_values. induction l as [|x l IH]; simpl; [reflexivity|].
  rewrite insert_sorted_perm, IH. reflexivity.
Qed.

Section Join.

Variables L R : list (value * list value).

(** The keys of the two sides are disjoint. *)
Hypothesis disjoint : forall k, In k (List.map fst L) -> ~ In k (List.map fst R).

Lemma group_rows_disjoint (k : value) :
  group_rows L R k = left_only L k ++ right_only R k.
Proof.
  unfold group_rows, left_only, right_only.
  destruct (List.filter (fun l => value_eqb (fst l) k) L) as [|l ls] eqn:El;
    destruct (List.filter (fun r => value_eqb (fst r) k) R) as [|r rs] eqn:Er.
  - reflexivity.
  - reflexivity.
  - rewrite app_nil_r. reflexivity.
  - exfalso. apply (disjoint k).
    + assert (In l (List.filter (fun l => value_eqb (fst l) k) L)) as H
          by (rewrite El; left; reflexivity).
      apply filter_In in H as [H E]. apply value_eqb_eq in E. subst k.
      apply in_map. exact H.
    + assert (In r (List.filter (fun r => value_eqb (fst r) k) R)) as H
          by (rewrite Er; left; reflexivity).
      apply filter_In in H as [H E]. apply value_eqb_eq in E. subst k.
      apply in_map. exact H.
Qed.

End Join.

Lemma length_filter_or {A} (p q : A -> bool) (l : list A) :
  (forall x, In x l -> p x = true -> q x = false) ->
  length (List.filter (fun x => p x || q x) l)
  = (length (List.filter p l) + length (List.filter q l))%nat.
Proof.
  induction l as [|x l IH]; intros H; simpl; [reflexivity|].
  assert (IH' := IH (fun y Hy => H y (or_intror Hy))).
  destruct (p x) eqn:Ep; simpl.
  - rewrite (H x (or_introl eq_refl) Ep). simpl. rewrite IH'. reflexivity.
  - destruct (q x); simpl; rewrite IH'; lia.
Qed.

(** Under keys that are distinct, the rows filed under each key add up to
    the rows whose key is among them. *)
Lemma length_by_key (X : list (value * list value)) (K : list value) :
  List.NoDup K ->
  length (List.flat_map (fun k => List.filter (fun x => value_eqb (fst x) k) X) K)
  = length (List.filter (fun x => mem (fst x) K) X).
Proof.
  induction 1 as [|k K Hk HK IH]; simpl.
  - induction X as [|x X IHX]; simpl; [reflexivity|exact IHX].
  - rewrite length_app, IH.
    rewrite (length_filter_or (fun x => value_eqb (fst x) k) (fun x => mem (fst x) K)).
    + reflexivity.
    + intros x _ E. apply value_eqb_eq in E. rewrite E.
      destruct (mem k K) eqn:Em; [|reflexivity].
      apply mem_In in Em. contradiction.
Qed.

Lemma filter_all {A} (p : A -> bool) (l : list A) :
  (forall x, In x l -> p x = true) -> List.filter p l = l.
Proof.
  induction l as [|x l IH]; intros H; simpl; [reflexivity|].
  rewrite (H x (or_introl eq_refl)), IH; [reflexivity|].
  intros y Hy. apply H. right. exact Hy.
Qed.

Lemma length_join_groups (L R : list (value * list value)) (K : list value) :
  length (List.flat_map (fun k => left_only L k ++ right_only R k) K)
  = (length (List.flat_map
               (fun k => List.filter (fun x => value_eqb (fst x) k) L) K)
     + length (List.flat_map
                 (fun k => List.filter (fun x => value_eqb (fst x) k) R) K))%nat.
Proof.
  induction K as [|k K IH]; simpl; [reflexivity|].
  rewrite !length_app, IH. unfold left_only, right_only.
  rewrite !length_map. lia.
Qed.

Lemma flat_map_ext_eq {A B} (f g : A -> list B) (l : list A) :
  (forall x, f x = g x) -> List.flat_map f l = List.flat_map g l.
Proof.
  intros H. induction l as [|x l IH]; simpl; [reflexivity|].
  rewrite H, IH. reflexivity.
Qed.

Lemma join_keys_NoDup L R : List.NoDup (join_keys L R).
Proof.
  unfold join_keys.
  eapply Permutation_NoDup; [symmetry; apply sort_values_perm|].
  apply NoDup_distinct.
Qed.

Lemma join_keys_In L R k :
  In k (join_keys L R) <-> In k (List.map fst L) \/ In k (List.map fst R).
Proof.
  unfold join_keys. split; intros H.
  - apply (Permutation_in _ (sort_values_perm _)) in H.
    apply (proj1 (In_distinct _ _)) in H. apply (proj1 (in_app_iff _ _ _)) in H.
    exact H.
  - apply (Permutation_in _ (Permutation_sym (sort_values_perm _))).
    apply (proj2 (In_distinct _ _)). apply (proj2 (in_app_iff _ _ _)). exact H.
Qed.

(** With disjoint keys the join has one row per row of either side. *)
Lemma outer_join_disjoint_length (L R : list (value * list value)) :
  (forall k, In k (List.map fst L) -> ~ In k (List.map fst R)) ->
  length (outer_join L R) = (length L + length R)%nat.
Proof.
  intros Hd. unfold outer_join. fold (join_keys L R).
  rewrite (flat_map_ext_eq _ _ _ (group_rows_disjoint L R Hd)).
  rewrite length_join_groups.
  rewrite !length_by_key by apply join_keys_NoDup.
  rewrite !filter_all; [reflexivity|..].
  - intros x Hx. apply mem_In, join_keys_In. right. apply in_map. exact Hx.
  - intros x Hx. apply mem_In, join_keys_In. left. apply in_map. exact Hx.
Qed.

(** With disjoint keys every row of the join comes from one side only. *)
Lemma outer_join_disjoint_rows (L R : list (value * list value)) (j : join_row) :
  (forall k, In k (List.map fst L) -> ~ In k (List.map fst R)) ->
  In j (outer_join L R) ->
  (exists c, j = (fst (fst j), Some c, None) /\ In (fst (fst j), c) L)
  \/ (exists c, j = (fst (fst j), None, Some c) /\ In (fst (fst j), c) R).
Proof.
  intros Hd Hj. unfold outer_join in Hj.
  apply in_flat_map in Hj as [k [_ Hj]].
  rewrite (group_rows_disjoint L R Hd) in Hj.
  apply in_app_iff in Hj as [Hj|Hj]; [left|right];
    apply in_map_iff in Hj as [x [<- Hx]];
    apply filter_In in Hx as [Hx E]; apply value_eqb_eq in E; subst k;
    exists (snd x); simpl; (split; [reflexivity|]);
    destruct x; exact Hx.
Qed.

(** *** Finding tables *)

Lemma eqb_capital (s n : string) :
  capital s = true -> capital n = false ->
  String.eqb s n = false /\ String.eqb n s = false.
Proof.
  intros Hs Hn.
  split; [destruct (String.eqb_spec s n)|destruct (String.eqb_spec n s)];
    try reflexivity; subst; congruence.
Qed.

Lemma capital_append (s sfx : string) :
  capital s = true -> capital (s +:+ sfx) = true.
Proof. destruct s; simpl; [discriminate|trivial]. Qed.

(** Settles the comparisons of names: a capitalised name against one that
    is not, a name against itself, and two names that are given. *)
Ltac names_differ :=
  repeat match goal with
         | |- context [String.eqb ?s ?s] => rewrite (String.eqb_refl s)
         | H : capital ?s = true |- context [String.eqb ?s ?n] =>
             rewrite (proj1 (eqb_capital s n H eq_refl))
         | H : capital ?s = true |- context [String.eqb ?n ?s] =>
             rewrite (proj2 (eqb_capital s n H eq_refl))
         | H : capital ?s = true |- context [String.eqb (?s +:+ ?x) ?n] =>
             rewrite (proj1 (eqb_capital (s +:+ x) n (capital_append s x H) eq_refl))
         | H : capital ?s = true |- context [String.eqb ?n (?s +:+ ?x)] =>
             rewrite (proj2 (eqb_capital (s +:+ x) n (capital_append s x H) eq_refl))
         | |- context [String.eqb ?a ?b] =>
             first [ change (String.eqb a b) with true
                   | change (String.eqb a b) with false ]
         | |- _ => progress cbn -[String.eqb String.append]
         end.

Lemma find_key_finding (t : DataFrame) :
  finding_shape t ->
  find_key t "index" = Ok (key_of t)
  /\ (key_of t = KeyLevel \/ key_of t = KeyColumn 0).
Proof.
  intros [flag rs H|flag rs H|rep rs H]; unfold key_of, find_key, names_of;
    names_differ; split; auto.
Qed.

Lemma finding_labels (l r : DataFrame) :
  finding_shape l -> finding_shape r ->
  exists ll rl,
    merge_labels (names_of l) (other_names (key_of r) (names_of r)) = Ok (ll, rl)
    /\ labels_fit (key_of l) (key_of r) (ll ++ rl).
Proof.
  intros [f rs H|f rs H|f rs H] [f' rs' H'|f' rs' H'|f' rs' H'];
    unfold key_of, find_key, names_of, merge_labels, add_suffix, labels_fit;
    names_differ;
    (destruct (String.eqb f f') eqn:E; [apply String.eqb_eq in E; subst f'|]);
    names_differ;
    do 2 eexists; (split; [reflexivity|]); names_differ; reflexivity.
Qed.

Lemma row_identities_split (t : DataFrame) :
  finding_shape t ->
  row_identities t = List.map fst (List.map (split_key (key_of t)) (rows t)).
Proof.
  intros Hs. unfold row_identities.
  rewrite (proj1 (find_key_finding t Hs)), List.map_map. reflexivity.
Qed.

Lemma int_keys_compatible (lk rk : list value) :
  Forall (fun k => is_int k = true) lk ->
  Forall (fun k => is_int k = true) rk ->
  keys_compatible lk rk = true.
Proof.
  assert (forall ks, Forall (fun k => is_int k = true) ks ->
                     existsb is_str ks = false) as no_text.
  { induction 1 as [|k ks Hk _ IH]; simpl; [reflexivity|].
    rewrite IH. destruct k; try discriminate Hk; reflexivity. }
  intros Hl Hr. unfold keys_compatible.
  destruct lk; [reflexivity|]. destruct rk; [reflexivity|].
  rewrite (no_text _ Hl), (no_text _ Hr). reflexivity.
Qed.

(** The non-key cells of a row of a well-formed finding table are as many
    as its flag columns. *)
Lemma flag_cells_length (t : DataFrame) (k : value) (c : list value) :
  finding_table t ->
  In (k, c) (List.map (split_key (key_of t)) (rows t)) ->
  length c = flag_count t.
Proof.
  intros [Hs Hc _] Hin.
  apply in_map_iff in Hin as [r0 [Heq Hr0]].
  rewrite Forall_forall in Hc. specialize (Hc r0).
  assert (length (snd r0) = width (columns t)) as Hlen.
  { apply Hc. apply list_elem_of_In. exact Hr0. }
  clear Hc. unfold flag_count.
  destruct Hs as [f rs H|f rs H|f rs H]; unfold key_of, find_key, names_of in *;
    revert Heq; names_differ; intros [= _ <-]; simpl in Hlen;
    destruct r0 as [lbl [|x cells]]; unfold remove_nth; simpl in *;
    try discriminate Hlen; rewrite ?drop_0; lia.
Qed.

(** The rows of a merged frame, read back as key and non-key cells. *)
Lemma merge_frame_split (lp rp : key_place) (labels : list string)
      (nl nr : nat) (js : list join_row) :
  (lp = KeyLevel \/ lp = KeyColumn 0) ->
  labels_fit lp rp labels ->
  let m := merge_frame "index" lp rp labels (join_cells lp nl nr) js in
  List.map (split_key (key_of m)) (rows m)
  = List.map (fun j => (fst (fst j), fill nl (snd (fst j)) ++ fill nr (snd j))) js.
Proof.
  intros Hlp Hfit m. subst m.
  destruct Hlp as [-> | ->]; [destruct rp as [i|]|];
    unfold labels_fit in Hfit; unfold merge_frame, key_of, find_key, names_of;
    cbn [index_name columns rows column_names].
  - cbn [position]. rewrite String.eqb_refl. cbn [split_key].
    rewrite (map_snd_range_labels (fun c => (nth 0 c VNull, remove_nth 0 c))).
    rewrite List.map_map. reflexivity.
  - rewrite Hfit, String.eqb_refl. cbn [split_key].
    rewrite List.map_map. reflexivity.
  - rewrite Hfit. cbn [split_key].
    rewrite (map_snd_range_labels (fun c => (nth 0 c VNull, remove_nth 0 c))).
    rewrite List.map_map. reflexivity.
Qed.

Lemma merge_frame_len (lp rp : key_place) (labels : list string)
      (cells : join_row -> list value) (js : list join_row) :
  len (merge_frame "index" lp rp labels cells js) = length js.
Proof.
  unfold len, merge_frame.
  destruct lp, rp; cbn [rows]; unfold row; rewrite ?length_range_labels;
    apply length_map.
Qed.

(** C8.  Two finding tables with no row identity in common merge into a
    table with as many rows as the two together; in a row whose identity is
    of the left table the cells under the flag columns of the right table
    are null, and in a row whose identity is of the right table the cells
    under the flag columns of the left table are null. *)
Theorem merge_disjoint_finding_tables (l r : DataFrame) :
  finding_table l ->
  finding_table r ->
  (forall k, In k (row_identities l) -> ~ In k (row_identities r)) ->
  exists m,
    merge l r "index" = Ok m
    /\ len m = (len l + len r)%nat
    /\ Forall
         (fun row =>
            (In (row_identity m row) (row_identities l)
             /\ drop (flag_count l) (flag_cells m row) = repeat VNull (flag_count r))
            \/ (In (row_identity m row) (row_identities r)
                /\ take (flag_count l) (flag_cells m row)
                   = repeat VNull (flag_count l)))
         (rows m).
Proof.
  intros Hl Hr Hd.
  pose proof (ft_shape l Hl) as Sl. pose proof (ft_shape r Hr) as Sr.
  destruct (find_key_finding l Sl) as [Kl Pl].
  destruct (find_key_finding r Sr) as [Kr _].
  destruct (finding_labels l r Sl Sr) as [ll [rl [Hlab Hfit]]].
  set (L := List.map (split_key (key_of l)) (rows l)).
  set (R := List.map (split_key (key_of r)) (rows r)).
  assert (row_identities l = List.map fst L) as Il by (apply row_identities_split, Sl).
  assert (row_identities r = List.map fst R) as Ir by (apply row_identities_split, Sr).
  assert (forall k, In k (List.map fst L) -> ~ In k (List.map fst R)) as Hd'.
  { intros k. rewrite <- Il, <- Ir. apply Hd. }
  exists (merge_frame "index" (key_of l) (key_of r) (ll ++ rl)
            (join_cells (key_of l) (flag_count l) (flag_count r)) (outer_join L R)).
  split; [|split].
  - unfold merge, rbind. rewrite Kl, Kr. fold L R.
    rewrite <- Il, <- Ir.
    rewrite (int_keys_compatible _ _ (ft_ids l Hl) (ft_ids r Hr)). simpl negb.
    cbv iota. unfold rbind. rewrite Hlab. reflexivity.
  - rewrite merge_frame_len, (outer_join_disjoint_length L R Hd').
    unfold L, R, len. rewrite !length_map. reflexivity.
  - set (m := merge_frame _ _ _ _ _ _).
    assert (Forall
              (fun kc : value * list value =>
                 (In (fst kc) (row_identities l)
                  /\ drop (flag_count l) (snd kc) = repeat VNull (flag_count r))
                 \/ (In (fst kc) (row_identities r)
                     /\ take (flag_count l) (snd kc) = repeat VNull (flag_count l)))
              (List.map (split_key (key_of m)) (rows m))) as H.
    { subst m. rewrite (merge_frame_split _ _ _ _ _ _ Pl Hfit).
      apply Forall_map. apply Forall_forall. intros j Hj.
      apply list_elem_of_In in Hj.
      destruct (outer_join_disjoint_rows L R j Hd' Hj) as [[c [-> Hc]]|[c [-> Hc]]];
        cbn [fst snd fill].
      - left. split.
        + rewrite Il. apply (in_map fst) in Hc. exact Hc.
        + apply drop_app_length'. symmetry. apply (flag_cells_length l _ c Hl Hc).
      - right. split.
        + rewrite Ir. apply (in_map fst) in Hc. exact Hc.
        + apply take_app_length'. symmetry. apply repeat_length. }
    apply Forall_map in H. exact H.
Qed.

(** *** The checks return finding tables *)

Lemma Forall_select {A} (P : A -> Prop) (l : list A) (m : list bool) :
  Forall P l -> Forall P (select l m).
Proof.
  intros H. revert m. induction H as [|x l Hx _ IH]; intros [|b m]; simpl;
    try constructor.
  destruct b; [constructor; [exact Hx|]|]; apply IH.
Qed.

Lemma finding_table_flag_table (idx : list value) (flag : string) :
  capital flag = true ->
  Forall (fun k => is_int k = true) idx ->
  finding_table (flag_table idx flag).
Proof.
  intros Hc Hi. split.
  - apply shape_indexed. exact Hc.
  - unfold flag_table. simpl. apply Forall_map. apply Forall_forall. reflexivity.
  - rewrite row_identities_flag_table; [exact Hi|].
    simpl. rewrite (proj1 (eqb_capital flag "index" Hc eq_refl)). reflexivity.
Qed.

Lemma finding_table_index_flag (idx : list value) (flag : string) :
  capital flag = true ->
  Forall (fun k => is_int k = true) idx ->
  finding_table (DataFrame_index_flag idx flag).
Proof.
  intros Hc Hi. split.
  - apply shape_flag. exact Hc.
  - unfold DataFrame_index_flag. simpl. apply Forall_forall. intros [lbl c] Hin.
    apply list_elem_of_In, in_combine_r, in_map_iff in Hin as [i [<- _]].
    reflexivity.
  - rewrite row_identities_index_flag. exact Hi.
Qed.

Lemma finding_table_columns (flag : string) :
  capital flag = true -> finding_table (DataFrame_columns ["index"; flag]).
Proof.
  intros Hc. split; [apply shape_flag; exact Hc|constructor|constructor].
Qed.

Section CheckResults.

Variable strptime : string -> value -> bool.
Variable float_str : float -> string.
Variables (df : DataFrame) (field : string).

(** The row identities of the table are integers. *)
Hypothesis int_index : Forall (fun k => is_int k = true) (index df).

Lemma flagged_int (m : list bool) :
  Forall (fun k => is_int k = true) (Index_getitem (index df) m).
Proof. apply Forall_select. exact int_index. Qed.

Lemma validate_none_fields_finding (st st' : registry) (t : DataFrame) :
  validate_none_fields df field st = (Ok t, st') -> finding_table t.
Proof.
  unfold validate_none_fields, bind, lift, ret.
  destruct (getitem df field) as [col|e]; [|discriminate]. cbv beta iota.
  destruct (any _).
  - rewrite set_index_index_flag. intros [= <- _].
    apply finding_table_flag_table; [reflexivity|apply flagged_int].
  - intros [= <- _]. apply finding_table_columns. reflexivity.
Qed.

Lemma validate_date_format_finding (st st' : registry) (t : DataFrame) :
  validate_date_format strptime df field st = (Ok t, st') -> finding_table t.
Proof.
  unfold validate_date_format, bind, lift, ret.
  destruct (getitem df field) as [col|e]; [|discriminate]. cbv beta iota.
  destruct (any _).
  - rewrite set_index_index_flag. intros [= <- _].
    apply finding_table_flag_table; [reflexivity|apply flagged_int].
  - intros [= <- _]. apply finding_table_columns. reflexivity.
Qed.

Lemma validate_int_fields_finding (st st' : registry) (t : DataFrame) :
  validate_int_fields df field st = (Ok t, st') -> finding_table t.
Proof.
  unfold validate_int_fields, bind, lift, ret.
  destruct (getitem df field) as [col|e]; [|discriminate]. cbv beta iota.
  destruct (any _).
  - rewrite set_index_index_flag. intros [= <- _].
    apply finding_table_index_flag; [reflexivity|apply flagged_int].
  - intros [= <- _]. apply finding_table_columns. reflexivity.
Qed.

Lemma validate_string_fields_finding (st st' : registry) (t : DataFrame) :
  validate_string_fields df field st = (Ok t, st') -> finding_table t.
Proof.
  unfold validate_string_fields, bind, lift, ret.
  destruct (getitem df field) as [col|e]; [|discriminate]. cbv beta iota.
  destruct (any _).
  - rewrite set_index_index_flag. intros [= <- _].
    apply finding_table_index_flag; [reflexivity|apply flagged_int].
  - intros [= <- _]. apply finding_table_columns. reflexivity.
Qed.

Lemma validate_country_codes_finding (st st' : registry) (t : DataFrame) :
  validate_country_codes float_str df field st = (Ok t, st') -> finding_table t.
Proof.
  unfold validate_country_codes, bind, lift, ret.
  destruct (getitem df field) as [col|e]; [|discriminate]. cbv beta iota.
  destruct (negb _).
  - destruct (Index_getitem_frame_raises (index df) (non_matching_rows df col))
      as [e ->].
    discriminate.
  - intros [= <- _]. apply finding_table_columns. reflexivity.
Qed.

End CheckResults.

(** *** The table of the uniqueness check *)

Lemma pop0_rows_ok (i : nat) (rs : list row) (xs : list value) (rs' : list row) :
  pop0_rows i rs = Ok (xs, rs') ->
  xs = List.map (fun r => first_of (cell i r)) rs
  /\ rs' = List.map (fun r => (fst r, <[i := rest_of (cell i r)]> (snd r))) rs
  /\ Forall (fun r => exists x l, cell i r = VList (x :: l)) rs.
Proof.
  revert xs rs'. induction rs as [|r rs IH]; intros xs rs'; simpl.
  - intros [= <- <-]. repeat split. constructor.
  - destruct (cell i r) as [| | | | |[|x l]] eqn:Ec; simpl; try discriminate.
    destruct (pop0_rows i rs) as [[ys rs'']|e]; simpl; [|discriminate].
    intros [= <- <-]. destruct (IH ys rs'' eq_refl) as [-> [-> Hall]].
    repeat split. constructor; [eauto|exact Hall].
Qed.

Lemma combine_map_same {A B C} (f : A -> B) (g : A -> C) (l : list A) :
  combine (List.map f l) (List.map g l) = List.map (fun x => (f x, g x)) l.
Proof. induction l as [|x l IH]; simpl; [reflexivity|]. rewrite IH. reflexivity. Qed.

Lemma position_in (name : string) (l : list string) (i : nat) :
  position name l = Some i -> existsb (String.eqb name) l = true.
Proof.
  revert i. induction l as [|x l IH]; intros i; simpl; [discriminate|].
  rewrite (String.eqb_sym name x).
  destruct (String.eqb x name); [reflexivity|].
  destruct (position name l) as [j|]; [|discriminate].
  intros _. exact (IH j eq_refl).
Qed.

Section UniqueResult.

Variables (df : DataFrame) (field : string).

(** The table as [extract_data] loads it: integer row identities in an
    unnamed index, and no column called [index]. *)
Hypothesis int_index : Forall (fun k => is_int k = true) (index df).
Hypothesis unnamed : index_name df = None.
Hypothesis no_index_column : existsb (String.eqb "index") (names_of df) = false.

Lemma validate_unique_fields_finding (st st' : registry) (t : DataFrame) :
  validate_unique_fields df field st = (Ok t, st') -> finding_table t.
Proof.
  unfold validate_unique_fields, bind, lift, ret.
  destruct (getitem df field) as [col|e] eqn:Hcol; [|discriminate].
  cbv beta iota. destruct (any _).
  2:{ intros [= <- _]. split; [apply shape_repeat; reflexivity|constructor|constructor]. }
  destruct (reset_index _) as [d1|e] eqn:E1; [|discriminate].
  destruct (groupby_apply_list d1 field "index") as [g|e] eqn:E2; [|discriminate].
  destruct (Series_reset_index g) as [d2|e] eqn:E3; [|discriminate].
  destruct (set_columns d2 _) as [d3|e] eqn:E4; [|discriminate].
  destruct (apply_pop0 d3 _) as [[popped d4]|e] eqn:E5; [|discriminate].
  destruct (getitem_list _ _) as [d5|e] eqn:E6; [|discriminate].
  intros [= <- _].
  unfold getitem in Hcol.
  destruct (position field (names_of df)) as [i|] eqn:Hpos; [|discriminate].
  assert (String.eqb "index" field = false) as Hfield.
  { destruct (String.eqb_spec "index" field) as [<-|]; [|reflexivity].
    apply position_in in Hpos. congruence. }
  (* the duplicated rows, with their identities as the column [index] *)
  unfold reset_index, loc, names_of in E1. cbn [index_name columns rows] in E1.
  fold (names_of df) in E1. rewrite unnamed, no_index_column in E1.
  rewrite no_index_column in E1. injection E1 as <-.
  set (sel := select (rows df) (duplicated col)) in *.
  (* the identities of each repeated value *)
  unfold groupby_apply_list, names_of in E2. cbn [columns column_names position] in E2.
  rewrite Hfield in E2. fold (names_of df) in E2. rewrite Hpos in E2.
  cbn [option_map rows] in E2. injection E2 as <-.
  unfold Series_reset_index in E3. cbn [s_index_name s_name s_items default from_option id] in E3.
  rewrite (String.eqb_sym field "index"), Hfield in E3. injection E3 as <-.
  unfold set_columns in E4. cbn [columns width length Nat.eqb rows index_name] in E4.
  injection E4 as <-.
  unfold apply_pop0, names_of in E5.
  cbn [columns column_names position rows index_name] in E5.
  set (labelled := range_labels (List.map (fun r : value * list value => fst r :: snd r) sel))
    in *.
  set (keyed := List.map (fun r : row => (cell (S i) r, cell 0 r)) labelled) in *.
  set (keys := sort_values _) in *.
  change (String.eqb ("Repeat_" +:+ field) "repeated_indexes") with false in E5.
  change (String.eqb "repeated_indexes" "repeated_indexes") with true in E5.
  cbn [option_map] in E5. unfold rbind in E5.
  destruct (pop0_rows 1 _) as [[xs rs]|e] eqn:Hpop; [|discriminate].
  injection E5 as <- <-.
  apply pop0_rows_ok in Hpop as [-> [-> Hall]].
  (* the first identity of each value becomes the column [index] *)
  unfold setitem, getitem_list, names_of in E6.
  cbn [columns column_names position rows index_name] in E6.
  change (String.eqb ("Repeat_" +:+ field) "index") with false in E6.
  change (String.eqb "repeated_indexes" "index") with false in E6.
  cbn [option_map columns column_names app positions position] in E6.
  change (String.eqb ("Repeat_" +:+ field) "index") with false in E6.
  change (String.eqb "repeated_indexes" "index") with false in E6.
  change (String.eqb "index" "index") with true in E6.
  change (String.eqb ("Repeat_" +:+ field) "repeated_indexes") with false in E6.
  change (String.eqb "repeated_indexes" "repeated_indexes") with true in E6.
  rewrite String.eqb_refl in E6.
  cbn [option_map rbind rows index_name] in E6. injection E6 as <-.
  rewrite combine_map_same, !List.map_map. rewrite !List.map_map in Hall.
  split.
  - apply shape_repeat. reflexivity.
  - cbn [rows columns width]. apply Forall_map. apply Forall_forall. reflexivity.
  - unfold row_identities, find_key, names_of.
    cbn [columns column_names position index_name rows split_key].
    change (String.eqb "index" "index") with true. cbv iota.
    rewrite List.map_map. apply Forall_map.
    rewrite Forall_forall in Hall. apply Forall_forall. intros r Hr.
    destruct (Hall r Hr) as [x [l Hx]].
    apply list_elem_of_In in Hr. unfold range_labels in Hr.
    destruct r as [lbl c]. apply in_combine_r in Hr.
    apply in_map_iff in Hr as [k [<- Hk]].
    cbn [cell snd fst nth] in Hx. injection Hx as Hx.
    assert (In x (List.map snd keyed)) as Hin.
    { assert (In x (List.map snd
                      (List.filter (fun kv => value_eqb (fst kv) k) keyed))) as H
          by (rewrite Hx; left; reflexivity).
      apply in_map_iff in H as [kv [<- H]].
      apply filter_In in H as [H _]. apply in_map. exact H. }
    rewrite Hx. simpl. clear Hx Hall.
    unfold keyed in Hin. rewrite List.map_map in Hin. cbn [snd] in Hin.
    apply in_map_iff in Hin as [[lbl0 c0] [<- Hr0]].
    unfold labelled, range_labels in Hr0. apply in_combine_r in Hr0.
    apply in_map_iff in Hr0 as [r1 [<- Hr1]].
    cbn [cell snd nth].
    assert (Forall (fun r => is_int (fst r) = true) sel) as Hsel.
    { apply Forall_select. apply Forall_map in int_index. exact int_index. }
    rewrite Forall_forall in Hsel. apply Hsel. apply list_elem_of_In. exact Hr1.
Qed.

End UniqueResult.

(** ** Instances *)

Lemma dispatch_missing_column_witness :
  validate_field_dic strptime_shape float_str_round4 codes "zip"
    (JObj [(none, JBool true); (type, JStr date_type)]) ∅
  = (Raise (column_not_found "zip"), ∅).
Proof.
  apply (dispatch_missing_column strptime_shape float_str_round4 codes "zip"
           [(none, JBool true); (type, JStr date_type)] ∅).
  - reflexivity.
  - reflexivity.
Defined.

Lemma dispatch_order_witness :
  validate_field_dic strptime_shape float_str_round4 emails "email"
    (JObj [(type, JStr string_type); (unique, JBool true); (none, JNum 1)]) ∅
  = try_except_KeyError
      (presence <- validate_none_fields emails "email" ;;
       uniqueness <- validate_unique_fields emails "email" ;;
       of_type <- validate_string_fields emails "email" ;;
       ret [presence; uniqueness; of_type])
      (raise (column_not_found "email")) ∅.
Proof.
  apply (dispatch_order strptime_shape float_str_round4 emails "email"
           [(type, JStr string_type); (unique, JBool true); (none, JNum 1)]
           string_type validate_string_fields ∅).
  - reflexivity.
  - reflexivity.
  - reflexivity.
  - reflexivity.
Defined.

(** The three tables of that dispatch, in order: no null email, the
    repeated email, no email that is not text. *)
Example dispatch_order_tables :
  fst (validate_field_dic strptime_shape float_str_round4 emails "email"
         (JObj [(type, JStr string_type); (unique, JBool true); (none, JNum 1)]) ∅)
  = Ok [DataFrame_columns ["index"; "NONE_email_VALUE"];
        mkDF None (ColNames ["index"; "Repeat_email"; "repeated_indexes"])
             [(VInt 0, [VInt 2; VStr "a@x.com"; VList [VInt 3]])];
        DataFrame_columns ["index"; "NULL_email_STRING"]].
Proof. reflexivity. Qed.

Lemma null_cell_flagged_by_date_only_witness :
  (exists t, validate_date_format strptime_shape codes "code" ∅ = (Ok t, ∅)
             /\ In (VInt 4) (row_identities t))
  /\ (exists t st', validate_int_fields codes "code" ∅ = (Ok t, st')
                    /\ ~ In (VInt 4) (row_identities t))
  /\ (exists t st', validate_string_fields codes "code" ∅ = (Ok t, st')
                    /\ ~ In (VInt 4) (row_identities t))
  /\ (exists col, getitem codes "code" = Ok col
                  /\ ~ In (VInt 4, [VNull]) (rows (non_matching_rows codes col)))
  /\ (forall t st', validate_country_codes float_str_round4 codes "code" ∅ = (Ok t, st') ->
                    ~ In (VInt 4) (row_identities t)).
Proof.
  apply (null_cell_flagged_by_date_only strptime_shape float_str_round4
           codes "code" 0%nat (VInt 4, [VNull]) ∅).
  - repeat (constructor;
            [simpl; intros H; repeat (destruct H as [H|H]; [discriminate H|]); exact H|]).
    constructor.
  - reflexivity.
  - simpl. tauto.
  - reflexivity.
Defined.

Lemma merge_disjoint_finding_tables_witness :
  exists m,
    merge presence_of_row_2 not_int_row_3 "index" = Ok m
    /\ len m = (len presence_of_row_2 + len not_int_row_3)%nat
    /\ Forall
         (fun row =>
            (In (row_identity m row) (row_identities presence_of_row_2)
             /\ drop (flag_count presence_of_row_2) (flag_cells m row)
                = repeat VNull (flag_count not_int_row_3))
            \/ (In (row_identity m row) (row_identities not_int_row_3)
                /\ take (flag_count presence_of_row_2) (flag_cells m row)
                   = repeat VNull (flag_count presence_of_row_2)))
         (rows m).
Proof.
  apply (merge_disjoint_finding_tables presence_of_row_2 not_int_row_3).
  - split.
    + apply shape_indexed. reflexivity.
    + repeat constructor.
    + repeat constructor.
  - split.
    + apply shape_flag. reflexivity.
    + repeat constructor.
    + repeat constructor.
  - simpl. intros k [<-|[]] [H|[]]. discriminate H.
Defined.

Example merge_disjoint_result :
  merge presence_of_row_2 not_int_row_3 "index"
  = Ok (mkDF None (ColNames ["index"; "NONE_code_VALUE"; "NULL_code_INT"])
             [(VInt 0, [VInt 2; VBool true; VNull]);
              (VInt 1, [VInt 3; VNull; VBool true])]).
Proof. reflexivity. Qed.

(** * Further properties of the program *)

(** ** What each check flags and records *)

Lemma any_false_filter {A} (f : A -> bool) (l : list A) :
  any (List.map f l) = false -> List.filter f l = [].
Proof.
  intros H. apply any_false_iff in H. apply Forall_map in H.
  induction H as [|x l Hx _ IH]; simpl; [reflexivity|].
  simpl in Hx. rewrite Hx. exact IH.
Qed.

Lemma row_identities_columns (names : list string) :
  row_identities (DataFrame_columns names) = [].
Proof.
  unfold row_identities, DataFrame_columns.
  destruct (find_key _ _); reflexivity.
Qed.

Section CheckSpecifications.

Variable strptime : string -> value -> bool.
Variable float_str : float -> string.
Variables (df : DataFrame) (field : string) (i : nat).
Hypothesis is_column : position field (names_of df) = Some i.

(** The column as a list of cells. *)
Lemma getitem_column :
  exists col, getitem df field = Ok col /\ values col = List.map (cell i) (rows df).
Proof. apply getitem_values. exact is_column. Qed.

Lemma validate_none_fields_result (st : registry) :
  exists t,
    validate_none_fields df field st
    = (Ok t, <[field := rate_message (List.map (fun r => is_null (cell i r)) (rows df))]> st)
    /\ row_identities t = identities_where (fun r => is_null (cell i r)) df.
Proof.
  destruct getitem_column as [col [Hcol Hvals]].
  unfold validate_none_fields, bind, lift, ret, rate_message, identities_where.
  rewrite Hcol. unfold isnull. rewrite Hvals, List.map_map.
  destruct (any _) eqn:Hany.
  - rewrite set_index_index_flag. eexists. split; [reflexivity|].
    rewrite row_identities_flag_table by reflexivity.
    rewrite <- (List.map_map (cell i) is_null). apply flagged_by_mask.
  - eexists. split; [reflexivity|].
    rewrite row_identities_columns, (any_false_filter _ _ Hany). reflexivity.
Qed.

Lemma validate_int_fields_result (st : registry) :
  let mask := List.map (fun r => not_a_number (cell i r)) (rows df) in
  exists t,
    validate_int_fields df field st
    = (Ok t, if any mask then <[field := rate_message mask]> st else st)
    /\ row_identities t = identities_where (fun r => not_a_number (cell i r)) df.
Proof.
  destruct getitem_column as [col [Hcol Hvals]]. intros mask. subst mask.
  unfold validate_int_fields, bind, lift, ret, rate_message, identities_where.
  rewrite Hcol. unfold apply. rewrite Hvals, List.map_map.
  fold not_a_number.
  change (fun x : row => negb (isinstance_int (cell i x) || isinstance_float (cell i x))
                          && negb (pd_isnull (cell i x)))
    with (fun x : row => not_a_number (cell i x)).
  destruct (any _) eqn:Hany.
  - rewrite set_index_index_flag. eexists. split; [reflexivity|].
    rewrite row_identities_index_flag.
    rewrite <- (List.map_map (cell i) not_a_number). apply flagged_by_mask.
  - eexists. split; [reflexivity|].
    rewrite row_identities_columns, (any_false_filter _ _ Hany). reflexivity.
Qed.

Lemma validate_string_fields_result (st : registry) :
  let mask := List.map (fun r => not_a_string (cell i r)) (rows df) in
  exists t,
    validate_string_fields df field st
    = (Ok t, if any mask then <[field := rate_message mask]> st else st)
    /\ row_identities t = identities_where (fun r => not_a_string (cell i r)) df.
Proof.
  destruct getitem_column as [col [Hcol Hvals]]. intros mask. subst mask.
  unfold validate_string_fields, bind, lift, ret, rate_message, identities_where.
  rewrite Hcol. unfold apply. rewrite Hvals, List.map_map.
  change (fun x : row => negb (isinstance_str (cell i x)) && negb (pd_isnull (cell i x)))
    with (fun x : row => not_a_string (cell i x)).
  destruct (any _) eqn:Hany.
  - rewrite set_index_index_flag. eexists. split; [reflexivity|].
    rewrite row_identities_index_flag.
    rewrite <- (List.map_map (cell i) not_a_string). apply flagged_by_mask.
  - eexists. split; [reflexivity|].
    rewrite row_identities_columns, (any_false_filter _ _ Hany). reflexivity.
Qed.

Lemma validate_date_format_result (st : registry) :
  exists t,
    validate_date_format strptime df field st = (Ok t, st)
    /\ row_identities t = identities_where (fun r => not_a_date strptime (cell i r)) df.
Proof.
  destruct getitem_column as [col [Hcol Hvals]].
  unfold validate_date_format, bind, lift, ret, identities_where.
  rewrite Hcol. unfold to_datetime_isna. rewrite Hvals, List.map_map.
  change (fun x : row => if is_null (cell i x) then true
                         else negb (strptime "%Y-%m-%d %H:%M:%S" (cell i x)))
    with (fun x : row => not_a_date strptime (cell i x)).
  destruct (any _) eqn:Hany.
  - rewrite set_index_index_flag. eexists. split; [reflexivity|].
    rewrite row_identities_flag_table by reflexivity.
    rewrite <- (List.map_map (cell i) (not_a_date strptime)). apply flagged_by_mask.
  - eexists. split; [reflexivity|].
    rewrite row_identities_columns, (any_false_filter _ _ Hany). reflexivity.
Qed.

Lemma non_matching_rows_filter :
  forall col, getitem df field = Ok col ->
  rows (non_matching_rows df col)
  = List.filter (fun r => not_a_country (cell i r)) (rows df).
Proof.
  intros col Hcol. destruct getitem_column as [col' [Hcol' Hvals]].
  rewrite Hcol in Hcol'. injection Hcol' as <-.
  unfold non_matching_rows, loc, isin, notnull, mask_not. cbn [rows].
  rewrite Hvals, !List.map_map, mask_and_map. apply select_self.
Qed.

Lemma width_positive : width (columns df) <> 0%nat.
Proof.
  unfold names_of in is_column. destruct (columns df) as [n|[|x l]]; simpl in *;
    discriminate.
Qed.

Lemma validate_country_codes_recognised (st : registry) :
  Forall (fun r => not_a_country (cell i r) = false) (rows df) ->
  validate_country_codes float_str df field st
  = (Ok (DataFrame_columns ["index"; "NOT_IN_" +:+ field +:+ "_LIST"]), st).
Proof.
  intros Hall. destruct getitem_column as [col [Hcol _]].
  unfold validate_country_codes, bind, lift, ret. rewrite Hcol.
  unfold empty, len. rewrite (non_matching_rows_filter col Hcol).
  assert (List.filter (fun r => not_a_country (cell i r)) (rows df) = []) as ->.
  { induction Hall as [|r rs Hr _ IH]; simpl; [reflexivity|]. rewrite Hr. exact IH. }
  reflexivity.
Qed.

Lemma validate_country_codes_unrecognised (st : registry) (r : row) :
  In r (rows df) -> not_a_country (cell i r) = true ->
  exists e, validate_country_codes float_str df field st = (Raise e, st)
            /\ (e = IndexError \/ e = ValueError).
Proof.
  intros Hin Hr. destruct getitem_column as [col [Hcol _]].
  unfold validate_country_codes, bind, lift, ret. rewrite Hcol.
  assert (empty (non_matching_rows df col) = false) as ->.
  { unfold empty, len. rewrite (non_matching_rows_filter col Hcol).
    apply orb_false_iff. split.
    - destruct (List.filter _ _) as [|x l] eqn:E; [|reflexivity].
      assert (In r (List.filter (fun r => not_a_country (cell i r)) (rows df))) as H
          by (apply filter_In; split; assumption).
      rewrite E in H. destruct H.
    - unfold non_matching_rows, loc. cbn [columns].
      apply Nat.eqb_neq. exact width_positive. }
  cbn [negb]. unfold Index_getitem_frame.
  destruct (asarray_dtype _); [destruct (forallb _ _)|..]; eexists; split;
    try reflexivity; auto.
Qed.

End CheckSpecifications.

(** X1.  On a field that is a column, the presence check returns a table
    that records exactly the rows whose cell is null, in row order, and
    always writes the registry entry of the field: the rounded share of
    those rows, or "Error_rate: 0%" when there is none. *)
Theorem presence_check_flags_null_rows (df : DataFrame) (field : string) (i : nat)
        (st : registry) :
  position field (names_of df) = Some i ->
  exists t,
    validate_none_fields df field st
    = (Ok t, <[field := rate_message (List.map (fun r => is_null (cell i r)) (rows df))]> st)
    /\ row_identities t = identities_where (fun r => is_null (cell i r)) df.
Proof. intros H. exact (validate_none_fields_result df field i H st). Qed.

(** X2.  On a field that is a column, the integer check returns a table
    that records exactly the rows whose cell is neither an [int], nor a
    [float], nor null; it writes the registry entry of the field only when
    there is such a row. *)
Theorem int_check_flags_non_numbers (df : DataFrame) (field : string) (i : nat)
        (st : registry) :
  position field (names_of df) = Some i ->
  let mask := List.map (fun r => not_a_number (cell i r)) (rows df) in
  exists t,
    validate_int_fields df field st
    = (Ok t, if any mask then <[field := rate_message mask]> st else st)
    /\ row_identities t = identities_where (fun r => not_a_number (cell i r)) df.
Proof. intros H. exact (validate_int_fields_result df field i H st). Qed.

(** X3.  On a field that is a column, the string check returns a table
    that records exactly the rows whose cell is neither a [str] nor null;
    it writes the registry entry of the field only when there is such a
    row. *)
Theorem string_check_flags_non_strings (df : DataFrame) (field : string) (i : nat)
        (st : registry) :
  position field (names_of df) = Some i ->
  let mask := List.map (fun r => not_a_string (cell i r)) (rows df) in
  exists t,
    validate_string_fields df field st
    = (Ok t, if any mask then <[field := rate_message mask]> st else st)
    /\ row_identities t = identities_where (fun r => not_a_string (cell i r)) df.
Proof. intros H. exact (validate_string_fields_result df field i H st). Qed.

(** X4.  On a field that is a column, the date-format check returns a table
    that records exactly the rows whose cell is null or does not parse with
    the format [%Y-%m-%d %H:%M:%S], and leaves the registry as it is. *)
Theorem date_check_flags_unparsed (strptime : string -> value -> bool)
        (df : DataFrame) (field : string) (i : nat) (st : registry) :
  position field (names_of df) = Some i ->
  exists t,
    validate_date_format strptime df field st = (Ok t, st)
    /\ row_identities t = identities_where (fun r => not_a_date strptime (cell i r)) df.
Proof. intros H. exact (validate_date_format_result strptime df field i H st). Qed.

(** X5.  When every cell of the field is a listed country code or null, the
    country-code check returns the empty table with the columns [index] and
    [NOT_IN_<field>_LIST] and leaves the registry as it is. *)
Theorem country_check_all_recognised (float_str : float -> string)
        (df : DataFrame) (field : string) (i : nat) (st : registry) :
  position field (names_of df) = Some i ->
  Forall (fun r => not_a_country (cell i r) = false) (rows df) ->
  validate_country_codes float_str df field st
  = (Ok (DataFrame_columns ["index"; "NOT_IN_" +:+ field +:+ "_LIST"]), st).
Proof.
  intros H. exact (validate_country_codes_recognised float_str df field i H st).
Qed.

(** X6.  As soon as one row has a cell that is not null and not a listed
    country code, the country-code check raises, [IndexError] or
    [ValueError], and the registry is left as it is: no such row is ever
    reported. *)
Theorem country_check_unrecognised_raises (float_str : float -> string)
        (df : DataFrame) (field : string) (i : nat) (st : registry) (r : row) :
  position field (names_of df) = Some i ->
  In r (rows df) ->
  not_a_country (cell i r) = true ->
  exists e, validate_country_codes float_str df field st = (Raise e, st)
            /\ (e = IndexError \/ e = ValueError).
Proof.
  intros H. exact (validate_country_codes_unrecognised float_str df field i H st r).
Qed.

(** X7.  Whatever the table and the field, the country-code check never
    writes the registry, and the only table it ever returns is the empty
    one with the columns [index] and [NOT_IN_<field>_LIST]. *)
Theorem country_check_never_reports (float_str : float -> string)
      (df : DataFrame) (field : string) (st : registry) :
  snd (validate_country_codes float_str df field st) = st
  /\ (forall t, fst (validate_country_codes float_str df field st) = Ok t ->
                t = DataFrame_columns ["index"; "NOT_IN_" +:+ field +:+ "_LIST"]).
Proof.
  unfold validate_country_codes, bind, lift, ret.
  destruct (getitem df field) as [col|e]; [|split; [reflexivity|discriminate]].
  cbv beta iota. destruct (negb _).
  - destruct (Index_getitem_frame_raises (index df) (non_matching_rows df col))
      as [e ->].
    split; [reflexivity|discriminate].
  - split; [reflexivity|]. intros t [= <-]. reflexivity.
Qed.

(** ** The uniqueness check *)





Section UniqueSpecification.

Variables (df : DataFrame) (field : string) (i : nat).
Hypothesis is_column : position field (names_of df) = Some i.
Hypothesis unnamed : index_name df = None.
Hypothesis no_index_column : existsb (String.eqb "index") (names_of df) = false.





Section RepeatSteps.

Variable items : list (value * value).
Hypothesis lists : Forall (fun kv => exists x l, snd kv = VList (x :: l)) items.





End RepeatSteps.


End UniqueSpecification.















(** ** The dispatcher and the entry point *)

(** X11.  A rule set that configures no check (no truthy [none], no truthy
    [unique], no recognised [type]) yields the empty list and leaves the
    registry alone, whatever the table; a field that is not a column goes
    unnoticed. *)
Theorem dispatch_nothing_configured
        (strptime : string -> value -> bool) (float_str : float -> string)
        (df : DataFrame) (field : string) (o : list (string * json)) (st : registry) :
  configures_check o = false ->
  validate_field_dic strptime float_str df field (JObj o) st = (Ok [], st).
Proof.
  unfold configures_check, rule_on, value_type. intros H.
  repeat (apply orb_false_iff in H as [H ?]).
  unfold validate_field_dic, try_except_KeyError, enabled, type_is, append_if,
    bind, lift, ret, py_in, py_getitem.
  destruct (dict_get none o) as [vn|]; [rewrite H|];
    (destruct (dict_get unique o) as [vu|];
     [match goal with E : truthy vu = false |- _ => rewrite E end|]);
    (destruct (dict_get type o) as [vt|]; [|reflexivity]);
    repeat match goal with E : eq_str vt _ = false |- _ => rewrite E; clear E end;
    reflexivity.
Qed.

(** X12.  A rule set that is [null], a boolean or a number is not
    iterable: the dispatcher raises [TypeError], which it does not turn into
    the column-not-found error. *)
Theorem dispatch_rule_set_not_iterable
        (strptime : string -> value -> bool) (float_str : float -> string)
        (df : DataFrame) (field : string) (b : bool) (z : Z) (st : registry) :
  validate_field_dic strptime float_str df field JNull st = (Raise TypeError, st)
  /\ validate_field_dic strptime float_str df field (JBool b) st = (Raise TypeError, st)
  /\ validate_field_dic strptime float_str df field (JNum z) st = (Raise TypeError, st).
Proof. repeat split. Qed.

(** X13.  A configuration without the key [data_valid] makes the entry
    point raise [KeyError] for that key, before any check runs. *)
Theorem entry_point_missing_data_valid
        (strptime : string -> value -> bool) (float_str : float -> string)
        (df : DataFrame) (o : list (string * json)) (st : registry) :
  dict_get "data_valid" o = None ->
  validate_fields_from_json strptime float_str df (JObj o) st
  = (Raise (KeyError "data_valid"), st).
Proof.
  intros H. unfold validate_fields_from_json, bind, lift, py_getitem.
  rewrite H. reflexivity.
Qed.

Lemma for_each_app {A S} (l1 l2 : list A) (body : A -> S -> M S) (s : S)
      (st : registry) :
  for_each (l1 ++ l2) body s st
  = match for_each l1 body s st with
    | (Ok s', st') => for_each l2 body s' st'
    | (Raise e, st') => (Raise e, st')
    end.
Proof.
  revert s st. induction l1 as [|x l1 IH]; intros s st; simpl; [reflexivity|].
  unfold bind. destruct (body x s st) as [[s'|e] st']; [apply IH|reflexivity].
Qed.

Lemma entry_point_steps
      (strptime : string -> value -> bool) (float_str : float -> string)
      (df : DataFrame) (o items : list (string * json)) (st : registry) :
  dict_get "data_valid" o = Some (JObj items) ->
  validate_fields_from_json strptime float_str df (JObj o) st
  = match dispatch_fields strptime float_str df items [] st with
    | (Ok list_df, st') => merged_report list_df st'
    | (Raise e, st') => (Raise e, st')
    end.
Proof.
  intros H. unfold validate_fields_from_json, py_getitem. rewrite H. reflexivity.
Qed.

(** X14.  The entry point stops at the first field whose dispatch raises:
    the exception leaves as it is, the fields after it are not looked at,
    and the registry keeps what the fields before it wrote. *)
Theorem entry_point_stops_at_first_error
        (strptime : string -> value -> bool) (float_str : float -> string)
        (df : DataFrame) (o pre post : list (string * json))
        (field : string) (validations : json)
        (tables : list DataFrame) (e : exn) (st st1 st2 : registry) :
  dict_get "data_valid" o = Some (JObj (pre ++ (field, validations) :: post)) ->
  dispatch_fields strptime float_str df pre [] st = (Ok tables, st1) ->
  validate_field_dic strptime float_str df field validations st1 = (Raise e, st2) ->
  validate_fields_from_json strptime float_str df (JObj o) st = (Raise e, st2).
Proof.
  intros Hcfg Hpre Herr.
  assert (dispatch_fields strptime float_str df
            (pre ++ (field, validations) :: post) [] st = (Raise e, st2)) as H.
  { unfold dispatch_fields in *. rewrite for_each_app, Hpre. simpl.
    unfold bind. rewrite Herr. reflexivity. }
  rewrite (entry_point_steps _ _ _ _ _ _ Hcfg), H. reflexivity.
Qed.

Lemma upper_ascii_idem (c : ascii) : upper_ascii (upper_ascii c) = upper_ascii c.
Proof. destruct c as [[] [] [] [] [] [] [] []]; reflexivity. Qed.

Lemma upper_idem (s : string) : upper (upper s) = upper s.
Proof.
  induction s as [|c s IH]; simpl; [reflexivity|].
  rewrite upper_ascii_idem, IH. reflexivity.
Qed.

Lemma merged_report_upper (list_df : list DataFrame) (st st' : registry)
      (t : DataFrame) :
  merged_report list_df st = (Ok t, st') ->
  exists names, columns t = ColNames names /\ Forall (fun n => upper n = n) names.
Proof.
  unfold merged_report, bind, lift, ret.
  destruct list_df as [|first others].
  - discriminate.
  - destruct (reduce _ first others) as [m|e]; [|discriminate].
    destruct (columns m) as [n|names]; simpl; [discriminate|].
    intros [= <- _]. exists (List.map upper names). split; [reflexivity|].
    apply Forall_map. apply Forall_forall. intros n _. apply upper_idem.
Qed.

(** X15.  Whenever the entry point returns a report, its columns are
    labelled by names, and every name is in upper case (unchanged by
    [upper]). *)
Theorem report_columns_upper_case
        (strptime : string -> value -> bool) (float_str : float -> string)
        (df : DataFrame) (data_config : json) (st st' : registry) (t : DataFrame) :
  validate_fields_from_json strptime float_str df data_config st = (Ok t, st') ->
  exists names, columns t = ColNames names /\ Forall (fun n => upper n = n) names.
Proof.
  unfold validate_fields_from_json, bind, lift.
  destruct (py_getitem data_config "data_valid") as [dv|e]; [|discriminate].
  destruct (py_items dv) as [items|e]; [|discriminate].
  destruct (for_each items _ [] st) as [[list_df|e] st1]; [|discriminate].
  intros H. apply (merged_report_upper list_df st1 st' t). exact H.
Qed.

Section PresenceThenUniqueness.

Variable strptime : string -> value -> bool.
Variable float_str : float -> string.
Variables (df : DataFrame) (field : string) (i : nat).
Hypothesis is_column : position field (names_of df) = Some i.
Hypothesis unnamed : index_name df = None.
Hypothesis no_index_column : existsb (String.eqb "index") (names_of df) = false.


End PresenceThenUniqueness.

(** ** [verify_columns] *)

Lemma existsb_position (c : string) (names : list string) :
  existsb (String.eqb c) names = true <-> exists i, position c names = Some i.
Proof.
  split; [|intros [i H]; exact (position_in c names i H)].
  induction names as [|x names IH]; simpl; [discriminate|].
  rewrite (String.eqb_sym c x). destruct (String.eqb x c); [eauto|].
  simpl. intros H. destruct (IH H) as [i ->]. simpl. eauto.
Qed.

(** X17.  [verify_columns] returns exactly when every expected name is a
    column the checks can read with [df[name]]; otherwise it raises
    [ValueError]. *)
Theorem verify_columns_spec (df : DataFrame) (expected : list string) :
  (verify_columns df expected = Ok tt
   <-> forall c, In c expected -> exists col, getitem df c = Ok col)
  /\ (verify_columns df expected = Ok tt \/ verify_columns df expected = Raise ValueError).
Proof.
  unfold verify_columns. split.
  - destruct (forallb _ expected) eqn:E.
    + split; [|reflexivity]. intros _ c Hc.
      rewrite forallb_forall in E. apply E, existsb_position in Hc as [i Hi].
      unfold getitem. rewrite Hi. eauto.
    + split; [discriminate|]. intros H. exfalso.
      assert (forallb (fun c => existsb (String.eqb c) (names_of df)) expected = true)
        as E'; [|congruence].
      apply forallb_forall. intros c Hc. apply existsb_position.
      destruct (H c Hc) as [col Hcol]. unfold getitem in Hcol.
      destruct (position c (names_of df)) as [i|]; [eauto|discriminate].
  - destruct (forallb _ expected); auto.
Qed.

(** ** The row identities [extract_data] assigns *)

Lemma combine_seq_nth {A} (f : nat -> value) (l : list A) (s k : nat) (x : A) :
  nth_error l k = Some x ->
  nth_error (combine (List.map f (seq s (length l))) l) k = Some (f (s + k)%nat, x).
Proof.
  revert s k. induction l as [|y l IH]; intros s [|k]; simpl; try discriminate.
  - intros [= ->]. rewrite Nat.add_0_r. reflexivity.
  - intros H. rewrite (IH (S s) k H).
    replace (S s + k)%nat with (s + S k)%nat by lia. reflexivity.
Qed.

Lemma combine_seq_fst {A} (f : nat -> value) (l : list A) (s : nat) :
  List.map fst (combine (List.map f (seq s (length l))) l)
  = List.map f (seq s (length l)).
Proof.
  revert s. induction l as [|y l IH]; intros s; simpl; [reflexivity|].
  f_equal. apply IH.
Qed.

Lemma combine_seq_snd {A} (f : nat -> value) (l : list A) (s : nat) :
  List.map snd (combine (List.map f (seq s (length l))) l) = l.
Proof.
  revert s. induction l as [|y l IH]; intros s; simpl; [reflexivity|].
  f_equal. apply IH.
Qed.

Lemma extract_data_rows (names : list string) (records : list (list value)) :
  rows (extract_data_frame names records)
  = combine (List.map (fun i => VInt (2 + Z.of_nat i)) (seq 0 (length records)))
            records.
Proof.
  unfold extract_data_frame, RangeIndex_labels, RangeIndex_add.
  cbn [rows fst snd].
  replace (Z.to_nat (Z.of_nat (length records) - 0)) with (length records) by lia.
  replace (Z.to_nat (Z.of_nat (length records) + 2 - (0 + 2)))
    with (length records) by lia.
  rewrite combine_seq_snd. reflexivity.
Qed.

(** X18.  In the frame [extract_data] builds, the record at position [k]
    (from 0) keeps its cells and has the row identity [k + 2]; the
    identities are distinct, the index has no name and there is one row per
    record. *)
Theorem extract_data_identities (names : list string) (records : list (list value))
        (k : nat) (record : list value) :
  nth_error records k = Some record ->
  let df := extract_data_frame names records in
  nth_error (rows df) k = Some (VInt (Z.of_nat k + 2), record)
  /\ List.NoDup (index df)
  /\ index_name df = None
  /\ len df = length records.
Proof.
  intros H. cbv zeta. unfold index, len. rewrite extract_data_rows.
  split; [|split; [|split]].
  - rewrite (combine_seq_nth _ _ _ _ _ H). do 3 f_equal. lia.
  - rewrite combine_seq_fst.
    apply Finite.Injective_map_NoDup; [|apply seq_NoDup].
    intros a b [= E]. lia.
  - reflexivity.
  - etransitivity; [symmetry; apply (length_map snd)|].
    rewrite combine_seq_snd. reflexivity.
Qed.

(** ** Merging two finding tables *)

Lemma merge_frame_identities (lp rp : key_place) (labels : list string)
      (nl nr : nat) (js : list join_row) :
  (lp = KeyLevel \/ lp = KeyColumn 0) ->
  labels_fit lp rp labels ->
  row_identities (merge_frame "index" lp rp labels (join_cells lp nl nr) js)
  = List.map (fun j => fst (fst j)) js.
Proof.
  intros Hlp Hfit.
  pose proof (merge_frame_split lp rp labels nl nr js Hlp Hfit) as Hs.
  cbv zeta in Hs.
  set (m := merge_frame "index" lp rp labels (join_cells lp nl nr) js) in *.
  assert (find_key m "index" = Ok (key_of m)) as Hk.
  { subst m. destruct Hlp as [-> | ->]; [destruct rp as [i|]|];
      unfold labels_fit in Hfit; unfold merge_frame, key_of, find_key, names_of;
      cbn [index_name columns rows column_names].
    - cbn [position]. rewrite String.eqb_refl. reflexivity.
    - rewrite Hfit, String.eqb_refl. reflexivity.
    - rewrite Hfit. reflexivity. }
  unfold row_identities. rewrite Hk.
  rewrite <- (List.map_map (split_key (key_of m)) fst), Hs, List.map_map.
  reflexivity.
Qed.

Lemma group_rows_key (L R : list (value * list value)) (k : value) (j : join_row) :
  In j (group_rows L R k) -> fst (fst j) = k.
Proof.
  unfold group_rows.
  destruct (List.filter (fun l => value_eqb (fst l) k) L) as [|l ls];
    destruct (List.filter (fun r => value_eqb (fst r) k) R) as [|r rs];
    intros H.
  - destruct H.
  - apply in_map_iff in H as [x [<- _]]. reflexivity.
  - apply in_map_iff in H as [x [<- _]]. reflexivity.
  - apply in_flat_map in H as [x [_ H]].
    apply in_map_iff in H as [y [<- _]]. reflexivity.
Qed.

Lemma filter_key_nonempty (X : list (value * list value)) (k : value) :
  In k (List.map fst X) ->
  List.filter (fun x => value_eqb (fst x) k) X <> [].
Proof.
  intros H E. apply in_map_iff in H as [x [<- Hx]].
  assert (In x (List.filter (fun y => value_eqb (fst y) (fst x)) X)) as Hin.
  { apply filter_In. split; [exact Hx|apply value_eqb_refl]. }
  rewrite E in Hin. destruct Hin.
Qed.

Lemma group_rows_nonempty (L R : list (value * list value)) (k : value) :
  In k (List.map fst L) \/ In k (List.map fst R) ->
  exists j, In j (group_rows L R k).
Proof.
  intros H. unfold group_rows.
  destruct (List.filter (fun l => value_eqb (fst l) k) L) as [|l ls] eqn:El;
    destruct (List.filter (fun r => value_eqb (fst r) k) R) as [|r rs] eqn:Er.
  - exfalso. destruct H as [H|H].
    + exact (filter_key_nonempty L k H El).
    + exact (filter_key_nonempty R k H Er).
  - eexists. left. reflexivity.
  - eexists. left. reflexivity.
  - eexists. simpl. left. reflexivity.
Qed.

(** The keys of the join are the keys of either side. *)
Lemma outer_join_keys (L R : list (value * list value)) (k : value) :
  In k (List.map (fun j : join_row => fst (fst j)) (outer_join L R))
  <-> In k (List.map fst L) \/ In k (List.map fst R).
Proof.
  unfold outer_join. fold (join_keys L R). split.
  - intros H. apply in_map_iff in H as [j [<- Hj]].
    apply in_flat_map in Hj as [k' [Hk' Hj]].
    rewrite (group_rows_key L R k' j Hj). apply join_keys_In. exact Hk'.
  - intros H. destruct (group_rows_nonempty L R k H) as [j Hj].
    apply in_map_iff. exists j. split; [exact (group_rows_key L R k j Hj)|].
    apply in_flat_map. exists k. split; [|exact Hj].
    apply join_keys_In. exact H.
Qed.

Lemma filter_key_single (X : list (value * list value)) (k : value) :
  List.NoDup (List.map fst X) ->
  (length (List.filter (fun x => value_eqb (fst x) k) X) <= 1)%nat.
Proof.
  induction X as [|x X IH]; simpl; [lia|].
  intros H. apply List.NoDup_cons_iff in H as [Hx HX].
  destruct (value_eqb (fst x) k) eqn:E; [|exact (IH HX)].
  apply value_eqb_eq in E. subst k.
  destruct (List.filter (fun y => value_eqb (fst y) (fst x)) X) as [|y ys] eqn:F;
    [simpl; lia|].
  exfalso. apply Hx.
  assert (In y (List.filter (fun y => value_eqb (fst y) (fst x)) X)) as Hy
      by (rewrite F; left; reflexivity).
  apply filter_In in Hy as [Hy Ey]. apply value_eqb_eq in Ey. rewrite <- Ey.
  apply in_map. exact Hy.
Qed.

Lemma group_rows_single (L R : list (value * list value)) (k : value) :
  List.NoDup (List.map fst L) -> List.NoDup (List.map fst R) ->
  (length (group_rows L R k) <= 1)%nat.
Proof.
  intros HL HR.
  pose proof (filter_key_single L k HL) as Hl.
  pose proof (filter_key_single R k HR) as Hr.
  unfold group_rows.
  destruct (List.filter (fun l => value_eqb (fst l) k) L) as [|l [|l' ls]];
    destruct (List.filter (fun r => value_eqb (fst r) k) R) as [|r [|r' rs]];
    simpl in *; lia.
Qed.

Lemma flat_map_keys_NoDup (g : value -> list join_row) (K : list value) :
  List.NoDup K ->
  (forall k j, In j (g k) -> fst (fst j) = k) ->
  (forall k, (length (g k) <= 1)%nat) ->
  List.NoDup (List.map (fun j : join_row => fst (fst j)) (List.flat_map g K)).
Proof.
  intros HK Hkey Hone. induction HK as [|k K Hk HK IH]; simpl; [constructor|].
  specialize (Hone k). pose proof (Hkey k) as Hkk.
  destruct (g k) as [|j [|j' js]]; simpl in *; [exact IH| |lia].
  constructor; [|exact IH].
  rewrite (Hkk j (or_introl eq_refl)). intros H.
  apply in_map_iff in H as [j' [E Hj']].
  apply in_flat_map in Hj' as [k' [Hk' Hj']].
  rewrite (Hkey k' j' Hj') in E. subst k'. exact (Hk Hk').
Qed.

(** X19.  Two finding tables always merge on [index]: the merged table
    records exactly the row identities that either table records, and when
    neither table records an identity twice, the merged table has one row
    per identity. *)
Theorem merge_finding_tables_identities (l r : DataFrame) :
  finding_table l ->
  finding_table r ->
  exists m,
    merge l r "index" = Ok m
    /\ (forall k, In k (row_identities m)
                  <-> In k (row_identities l) \/ In k (row_identities r))
    /\ (List.NoDup (row_identities l) -> List.NoDup (row_identities r) ->
        List.NoDup (row_identities m)).
Proof.
  intros Hl Hr.
  pose proof (ft_shape l Hl) as Sl. pose proof (ft_shape r Hr) as Sr.
  destruct (find_key_finding l Sl) as [Kl Pl].
  destruct (find_key_finding r Sr) as [Kr _].
  destruct (finding_labels l r Sl Sr) as [ll [rl [Hlab Hfit]]].
  set (L := List.map (split_key (key_of l)) (rows l)).
  set (R := List.map (split_key (key_of r)) (rows r)).
  assert (row_identities l = List.map fst L) as Il by (apply row_identities_split, Sl).
  assert (row_identities r = List.map fst R) as Ir by (apply row_identities_split, Sr).
  exists (merge_frame "index" (key_of l) (key_of r) (ll ++ rl)
            (join_cells (key_of l) (flag_count l) (flag_count r)) (outer_join L R)).
  split; [|split].
  - unfold merge, rbind. rewrite Kl, Kr. fold L R.
    rewrite <- Il, <- Ir.
    rewrite (int_keys_compatible _ _ (ft_ids l Hl) (ft_ids r Hr)). simpl negb.
    cbv iota. unfold rbind. rewrite Hlab. reflexivity.
  - intros k. rewrite (merge_frame_identities _ _ _ _ _ _ Pl Hfit), Il, Ir.
    apply outer_join_keys.
  - rewrite (merge_frame_identities _ _ _ _ _ _ Pl Hfit), Il, Ir.
    intros HL HR. unfold outer_join. fold (join_keys L R).
    apply flat_map_keys_NoDup.
    + apply join_keys_NoDup.
    + apply group_rows_key.
    + intros k. apply group_rows_single; assumption.
Qed.

(** ** Instances of the further properties *)

Lemma presence_check_flags_null_rows_witness :
  exists t,
    validate_none_fields codes "code" ∅
    = (Ok t, <["code" := rate_message
                            (List.map (fun r => is_null (cell 0 r)) (rows codes))]> ∅)
    /\ row_identities t = identities_where (fun r => is_null (cell 0 r)) codes.
Proof.
  apply (presence_check_flags_null_rows codes "code" 0 ∅). reflexivity.
Defined.

Lemma int_check_flags_non_numbers_witness :
  let mask := List.map (fun r => not_a_number (cell 0 r)) (rows codes) in
  exists t,
    validate_int_fields codes "code" ∅
    = (Ok t, if any mask then <["code" := rate_message mask]> ∅ else ∅)
    /\ row_identities t = identities_where (fun r => not_a_number (cell 0 r)) codes.
Proof.
  apply (int_check_flags_non_numbers codes "code" 0 ∅). reflexivity.
Defined.

Lemma string_check_flags_non_strings_witness :
  let mask := List.map (fun r => not_a_string (cell 0 r)) (rows codes) in
  exists t,
    validate_string_fields codes "code" ∅
    = (Ok t, if any mask then <["code" := rate_message mask]> ∅ else ∅)
    /\ row_identities t = identities_where (fun r => not_a_string (cell 0 r)) codes.
Proof.
  apply (string_check_flags_non_strings codes "code" 0 ∅). reflexivity.
Defined.

Lemma date_check_flags_unparsed_witness :
  exists t,
    validate_date_format strptime_shape codes "code" ∅ = (Ok t, ∅)
    /\ row_identities t
       = identities_where (fun r => not_a_date strptime_shape (cell 0 r)) codes.
Proof.
  apply (date_check_flags_unparsed strptime_shape codes "code" 0 ∅). reflexivity.
Defined.

Lemma country_check_all_recognised_witness :
  validate_country_codes float_str_round4 (table "code" [VStr "AR"; VNull; VStr "UY"])
                         "code" ∅
  = (Ok (DataFrame_columns ["index"; "NOT_IN_" +:+ "code" +:+ "_LIST"]), ∅).
Proof.
  apply (country_check_all_recognised float_str_round4
           (table "code" [VStr "AR"; VNull; VStr "UY"]) "code" 0 ∅).
  - reflexivity.
  - repeat constructor.
Defined.

Lemma country_check_unrecognised_raises_witness :
  exists e, validate_country_codes float_str_round4 codes "code" ∅ = (Raise e, ∅)
            /\ (e = IndexError \/ e = ValueError).
Proof.
  apply (country_check_unrecognised_raises float_str_round4 codes "code" 0 ∅
           (VInt 3, [VStr "ZZ"])).
  - reflexivity.
  - right. left. reflexivity.
  - reflexivity.
Defined.




Lemma dispatch_nothing_configured_witness :
  validate_field_dic strptime_shape float_str_round4 codes "zip"
    (JObj [(none, JBool false); (type, JStr "float")]) ∅
  = (Ok [], ∅).
Proof.
  apply (dispatch_nothing_configured strptime_shape float_str_round4 codes "zip"
           [(none, JBool false); (type, JStr "float")] ∅).
  reflexivity.
Defined.

Lemma entry_point_missing_data_valid_witness :
  validate_fields_from_json strptime_shape float_str_round4 codes
    (JObj [("route_file", JStr "data.csv")]) ∅
  = (Raise (KeyError "data_valid"), ∅).
Proof.
  apply (entry_point_missing_data_valid strptime_shape float_str_round4 codes
           [("route_file", JStr "data.csv")] ∅).
  reflexivity.
Defined.

Lemma entry_point_stops_at_first_error_witness :
  validate_fields_from_json strptime_shape float_str_round4 codes
    (JObj [("data_valid",
            JObj ([("code", JObj [(none, JBool true)])]
                  ++ ("zip", JObj [(unique, JBool true)])
                  :: [("code", JObj [(type, JStr string_type)])]))]) ∅
  = (Raise (column_not_found "zip"), <["code" := "Error_rate: 33.3333%"]> ∅).
Proof.
  eapply (entry_point_stops_at_first_error strptime_shape float_str_round4 codes
            _ [("code", JObj [(none, JBool true)])]
            [("code", JObj [(type, JStr string_type)])]
            "zip" (JObj [(unique, JBool true)])).
  - reflexivity.
  - reflexivity.
  - reflexivity.
Defined.

Lemma report_columns_upper_case_witness :
  exists names,
    columns (mkDF None (ColNames ["INDEX"; "REPEAT_EMAIL"; "REPEATED_INDEXES"])
                  [(VInt 0, [VInt 2; VStr "a@x.com"; VList [VInt 3]])])
    = ColNames names
    /\ Forall (fun n => upper n = n) names.
Proof.
  apply (report_columns_upper_case strptime_shape float_str_round4 emails
           (config "email" [(unique, JBool true)]) ∅
           (<["email" := "Error_rate: 66.6667%"]> ∅)).
  reflexivity.
Defined.


Lemma extract_data_identities_witness :
  let df := extract_data_frame ["code"] [[VStr "AR"]; [VStr "ZZ"]; [VNull]] in
  nth_error (rows df) 1 = Some (VInt (Z.of_nat 1 + 2), [VStr "ZZ"])
  /\ List.NoDup (index df)
  /\ index_name df = None
  /\ len df = length [[VStr "AR"]; [VStr "ZZ"]; [VNull]].
Proof.
  apply (extract_data_identities ["code"] [[VStr "AR"]; [VStr "ZZ"]; [VNull]]
           1 [VStr "ZZ"]).
  reflexivity.
Defined.

Lemma merge_finding_tables_identities_witness :
  exists m,
    merge presence_of_row_2 (DataFrame_index_flag [VInt 2; VInt 3] "NULL_code_INT")
          "index" = Ok m
    /\ (forall k,
          In k (row_identities m)
          <-> In k (row_identities presence_of_row_2)
              \/ In k (row_identities
                         (DataFrame_index_flag [VInt 2; VInt 3] "NULL_code_INT")))
    /\ (List.NoDup (row_identities presence_of_row_2) ->
        List.NoDup (row_identities
                      (DataFrame_index_flag [VInt 2; VInt 3] "NULL_code_INT")) ->
        List.NoDup (row_identities m)).
Proof.
  apply (merge_finding_tables_identities presence_of_row_2
           (DataFrame_index_flag [VInt 2; VInt 3] "NULL_code_INT")).
  - split.
    + apply shape_indexed. reflexivity.
    + repeat constructor.
    + repeat constructor.
  - split.
    + apply shape_flag. reflexivity.
    + repeat constructor.
    + repeat constructor.
Defined.
